(** * Travelleasy backend (server.js): a shallow embedding and its properties

    The Express handlers of [server.js] are embedded as functions in a small
    state-and-exception monad.  The process state is the in-memory
    [otpStore] with its pending timers and the two MongoDB collections; the
    external collaborators (clock, random source, Twilio, bcrypt, JWT, the QR
    encoder, face-api, the storage layer's verdicts) are gathered in a
    [World] record on which every statement is quantified. *)

From Stdlib Require Import ZArith QArith Qround Qabs Lqa String Ascii.
From stdpp Require Import base gmap strings list pretty.

Local Open Scope Z_scope.
Local Open Scope string_scope.

(** ** JavaScript values *)

Module JS.

(** The values that flow through the handlers: JSON scalars of request
    bodies, and the [Date] and [ObjectId] values of stored documents.
    [Native] stands for a function or object inherited from
    [Object.prototype]. *)
Inductive Value :=
| Undefined
| Null
| Bool (b : bool)
| Num (n : Z)
| Str (s : string)
| DateV (t : option Z)      (* milliseconds since the epoch; None = Invalid Date *)
| ObjectId (hex : string)
| Native (name : string).

#[global] Instance Value_eq_dec : EqDecision Value.
Proof. solve_decision. Defined.

(** ToBoolean *)
Definition truthy (v : Value) : bool :=
  match v with
  | Undefined | Null => false
  | Bool b => b
  | Num n => negb (Z.eqb n 0)
  | Str s => negb (String.eqb s "")
  | DateV _ | ObjectId _ | Native _ => true
  end.

(** The strict equality [===] on these values. *)
Definition strict_eq (a b : Value) : bool := bool_decide (a = b).

Inductive Error := mkError (name message : string).

Definition message (e : Error) : string := let 'mkError _ m := e in m.

Inductive Completion (A : Type) :=
| Normal (a : A)
| Throw (e : Error).
Arguments Normal {A} a.
Arguments Throw {A} e.

(** Plain objects written as literals in the source: the fields in order. *)
Abbreviation Obj := (list (string * Value)).

Fixpoint field (o : Obj) (k : string) : Value :=
  match o with
  | [] => Undefined
  | (k', v) :: r => if String.eqb k k' then v else field r k
  end.

(** [str.split(' ')] *)
Fixpoint split_space (s : string) : list string :=
  match s with
  | EmptyString => [EmptyString]
  | String c r =>
      if Ascii.eqb c " "%char then EmptyString :: split_space r
      else match split_space r with
           | [] => [String c EmptyString]
           | p :: ps => String c p :: ps
           end
  end.

(** [Number.prototype.toString(36)] on a non-negative integer *)
Definition digit36 (d : Z) : ascii :=
  match String.get (Z.to_nat d) "0123456789abcdefghijklmnopqrstuvwxyz" with
  | Some c => c
  | None => "0"%char
  end.

Fixpoint toString36_go (fuel : nat) (n : Z) (acc : string) : string :=
  match fuel with
  | O => acc
  | S f =>
      if Z.ltb n 36 then String (digit36 n) acc
      else toString36_go f (n / 36) (String (digit36 (n mod 36)) acc)
  end.

Definition toString36 (n : Z) : string :=
  toString36_go (S (Z.to_nat (Z.log2 n))) n EmptyString.

Definition upper_ascii (c : ascii) : ascii :=
  let n := nat_of_ascii c in
  if (97 <=? n)%nat && (n <=? 122)%nat then ascii_of_nat (n - 32) else c.

Fixpoint toUpperCase (s : string) : string :=
  match s with
  | EmptyString => EmptyString
  | String c r => String (upper_ascii c) (toUpperCase r)
  end.

End JS.
Export JS.

(** ** Numbers

    A JavaScript Number is an IEEE 754 binary64 value.  The finite ones are
    the rationals [m * 2^e] with [|m| < 2^53] and [-1074 <= e <= 971]; they
    are written here over the common denominator [2^1074]. *)
Definition is_double (q : Q) : Prop :=
  ∃ m s : Z, (Z.abs m < 2 ^ 53)%Z ∧ (0 ≤ s ≤ 2045)%Z ∧
    (q == Qmake (m * 2 ^ s) (2 ^ 1074))%Q.

(** [f] is a double nearest to the real [q]: what an arithmetic operation
    whose exact result is [q] returns (round to nearest, no overflow). *)
Definition round_nearest (q f : Q) : Prop :=
  is_double f ∧ ∀ g, is_double g → (Qabs (f - q) <= Qabs (g - q))%Q.

(** The largest double below 1: [1 - 2^-53]. *)
Definition below_one : Q := 9007199254740991 # 9007199254740992.

(** ** The process state and the outside world *)

(** A stored document: its paths and their values. *)
Abbreviation Doc := (gmap string Value).

(** What is in memory and in the database between two requests.  [timers]
    are the callbacks registered by [setTimeout]: the time at which each
    fires and the phone number its closure has captured. *)
Record State := mkState {
  otpStore : gmap string string;
  timers : list (Z * string);
  users : list Doc;
  tickets : list Doc
}.

Definition Descriptor := list Q.

(** The collaborators of one request.  Each field is the behaviour of a
    library or of the environment that the handlers call; an operation that
    can reject or throw returns a [Completion]. *)
Record World := mkWorld {
  Date_now : nat -> Z;                        (* k-th reading of the clock *)
  Date_parse : Value -> option Z;             (* new Date(v); None = Invalid Date *)
  Date_toString : option Z -> string;
  Math_random : Q;                            (* a Number in [0,1) *)
  Number_multiply : Q -> Q -> Q;              (* the operator * on Numbers *)
  Number_add : Q -> Q -> Q;                   (* the operator + on Numbers *)
  NODE_ENV : Value;
  jwt_sign : Doc -> string;
  jwt_verify : string -> option Doc;          (* None = throws *)
  bcrypt_hash : Value -> Completion string;
  bcrypt_compare : Value -> Value -> Completion bool;
  twilio_create : string -> Value -> Completion unit;   (* body, to *)
  qrcode_toDataURL : Obj -> Completion string;          (* of JSON.stringify(obj) *)
  new_ObjectId : string;
  ObjectId_from : string -> option string;    (* new ObjectId(s); None = throws *)
  db_ok : nat -> bool;                        (* does the k-th storage call succeed *)
  canvas_loadImage : Value -> Completion Value;
  detectSingleFace : Value -> Completion (option Descriptor);
  euclideanDistance : Descriptor -> Descriptor -> Q
}.

(** ToString, and the method call [v.toString()] which throws on
    [undefined] and [null]. *)
Definition ToString (w : World) (v : Value) : string :=
  match v with
  | Undefined => "undefined"
  | Null => "null"
  | Bool true => "true"
  | Bool false => "false"
  | Num n => pretty n
  | Str s => s
  | DateV t => Date_toString w t
  | ObjectId h => h
  | Native n => "function " ++ n ++ "() { [native code] }"
  end.

Definition TypeError (m : string) : Error := mkError "TypeError" m.
Definition ReferenceError (m : string) : Error := mkError "ReferenceError" m.

Definition toString (w : World) (v : Value) : Completion string :=
  match v with
  | Undefined | Null => Throw (TypeError "Cannot read properties of undefined")
  | _ => Normal (ToString w v)
  end.

(** [v.startsWith(p)]: only strings have the method. *)
Definition startsWith (v : Value) (p : string) : Completion bool :=
  match v with
  | Str s => Normal (String.prefix p s)
  | Undefined | Null => Throw (TypeError "Cannot read properties of undefined")
  | _ => Throw (TypeError "startsWith is not a function")
  end.

(** ** The monad of handler code: state and exceptions *)

Definition M (A : Type) : Type := State -> Completion A * State.

Definition ret {A} (a : A) : M A := fun s => (Normal a, s).

Definition bind {A B} (m : M A) (k : A -> M B) : M B :=
  fun s => match m s with
           | (Normal a, s') => k a s'
           | (Throw e, s') => (Throw e, s')
           end.

Definition throw {A} (e : Error) : M A := fun s => (Throw e, s).

(** [try { m } catch (error) { h error }]: the state reached when the
    exception was raised is kept. *)
Definition try_catch {A} (m : M A) (h : Error -> M A) : M A :=
  fun s => match m s with
           | (Normal a, s') => (Normal a, s')
           | (Throw e, s') => h e s'
           end.

(** The completion of a call into a library. *)
Definition lift {A} (c : Completion A) : M A := fun s => (c, s).

Definition get_state : M State := fun s => (Normal s, s).

Declare Scope js_scope.
Delimit Scope js_scope with js.
Notation "'let!' x ':=' m 'in' k" := (bind m (fun x => k))
  (at level 10, x name, m at level 100, k at level 200) : js_scope.
Notation "m ';;' k" := (bind m (fun _ => k))
  (at level 100, k at level 200, right associativity) : js_scope.
Local Open Scope js_scope.

(** ** Responses *)

Inductive Json :=
| JVal (v : Value)
| JObj (fields : list (string * Json))
| JDoc (d : Doc).

(** [JSON.stringify] leaves out the properties whose value is [undefined]. *)
Definition defined (kv : string * Json) : bool :=
  match kv.2 with
  | JVal Undefined => false
  | _ => true
  end.

Fixpoint stringify (j : Json) : Json :=
  match j with
  | JObj fs => JObj (List.filter defined (List.map (fun '(k, v) => (k, stringify v)) fs))
  | _ => j
  end.

Fixpoint jfield (fs : list (string * Json)) (k : string) : option Json :=
  match fs with
  | [] => None
  | (k', v) :: r => if String.eqb k k' then Some v else jfield r k
  end.

Record Response := mkResponse {
  status : Z;
  body : Json       (* as sent on the wire *)
}.

(** [res.status(code).json(obj)]; [res.json(obj)] is [send 200 obj]. *)
Definition send (code : Z) (fs : list (string * Json)) : M Response :=
  ret (mkResponse code (stringify (JObj fs))).

Record Request := mkRequest {
  authorization : Value;       (* req.headers.authorization *)
  req_body : Obj;              (* req.body *)
  params_id : string;          (* req.params.id *)
  user : Doc                   (* req.user, set by authenticateToken *)
}.

(** ** The storage layer: Mongoose models over the two collections *)

Module Mongo.

Inductive SchemaType := TString | TDate | TObjectId.

Inductive Default := NoDefault | DefaultValue (v : Value) | DefaultNow.

Record SchemaPath := mkPath {
  pname : string;
  ptype : SchemaType;
  pdefault : Default
}.

Definition Schema := list SchemaPath.

Inductive Collection := Users | Tickets.

Definition collection (c : Collection) (s : State) : list Doc :=
  match c with Users => users s | Tickets => tickets s end.

Definition set_collection (c : Collection) (l : list Doc) (s : State) : State :=
  match c with
  | Users => mkState (otpStore s) (timers s) l (tickets s)
  | Tickets => mkState (otpStore s) (timers s) (users s) l
  end.

(** Mongoose casts a value to the type of its path; [None] is a CastError.
    [null] and [undefined] are left as they are. *)
Definition cast (w : World) (ty : SchemaType) (v : Value) : option Value :=
  match v with
  | Undefined | Null => Some v
  | _ =>
      match ty with
      | TString => Some (Str (ToString w v))
      | TDate =>
          match v with
          | DateV (Some t) => Some v
          | DateV None => None
          | _ => match Date_parse w v with
                 | Some t => Some (DateV (Some t))
                 | None => None
                 end
          end
      | TObjectId =>
          match v with
          | ObjectId _ => Some v
          | _ => match ObjectId_from w (ToString w v) with
                 | Some h => Some (ObjectId h)
                 | None => None
                 end
          end
      end
  end.

Definition CastError : Error := mkError "CastError" "Cast failed".
Definition MongoError : Error := mkError "MongoError" "storage failure".

(** A document in the hands of a handler: its paths, whether every cast
    succeeded when it was built, and whether it is yet to be inserted. *)
Record Document := mkDocument {
  doc : Doc;
  cast_ok : bool;
  isNew : bool
}.

(** [doc.path]: a path that the document does not have reads [undefined]. *)
Definition get (d : Doc) (k : string) : Value := default Undefined (d !! k).

(** [new Model(obj)]: only the paths of the schema are taken from [obj]
    (strict mode: any other property of [obj] is dropped), each cast to its
    type; an absent path takes its default; [_id] is generated. *)
Definition path_value (w : World) (now : Z) (p : SchemaPath) (o : Obj)
  : option Value * bool :=
  match field o (pname p) with
  | Undefined =>
      (match pdefault p with
       | NoDefault => None
       | DefaultValue v => Some v
       | DefaultNow => Some (DateV (Some now))
       end, true)
  | v =>
      match cast w (ptype p) v with
      | Some v' => (Some v', true)
      | None => (None, false)
      end
  end.

Fixpoint construct (w : World) (now : Z) (sch : Schema) (o : Obj) : Doc * bool :=
  match sch with
  | [] => (∅, true)
  | p :: r =>
      let '(d, ok) := construct w now r o in
      let '(v, okp) := path_value w now p o in
      (match v with Some v' => <[pname p := v']> d | None => d end, ok && okp)
  end.

Definition Model (w : World) (now : Z) (sch : Schema) (o : Obj) : Document :=
  let '(d, ok) := construct w now sch o in
  mkDocument (<["_id" := ObjectId (new_ObjectId w)]> d) ok true.

Definition path_type (sch : Schema) (k : string) : option SchemaType :=
  if String.eqb k "_id" then Some TObjectId
  else ptype <$> List.find (fun p => String.eqb (pname p) k) sch.

(** Casting a query filter; a path outside the schema is left uncast. *)
Fixpoint cast_filter (w : World) (sch : Schema) (f : Obj) : option Obj :=
  match f with
  | [] => Some []
  | (k, v) :: r =>
      match cast_filter w sch r with
      | None => None
      | Some r' =>
          match path_type sch k with
          | None => Some ((k, v) :: r')
          | Some ty =>
              match cast w ty v with
              | Some v' => Some ((k, v') :: r')
              | None => None
              end
          end
      end
  end.

(** Equality match of one filter entry against a document; [undefined] is
    sent as [null], which matches an absent or [null] path. *)
Definition match_field (d : Doc) (kv : string * Value) : bool :=
  match kv.2 with
  | Undefined | Null =>
      match d !! kv.1 with
      | None | Some Null | Some Undefined => true
      | Some _ => false
      end
  | v => bool_decide (d !! kv.1 = Some v)
  end.

Definition matches (f : Obj) (d : Doc) : bool := forallb (match_field d) f.

(** [Model.findOne(filter)] as the [k]-th storage call of the request: the
    first document of the collection that matches, or [null]. *)
Definition findOne (w : World) (k : nat) (c : Collection) (sch : Schema) (f : Obj)
  : M (option Document) :=
  fun s =>
    match cast_filter w sch f with
    | None => (Throw CastError, s)
    | Some f' =>
        if db_ok w k then
          (Normal ((fun d => mkDocument d true false) <$> List.find (matches f') (collection c s)), s)
        else (Throw MongoError, s)
    end.

(** [{ $or: [clause] }] with its single clause. *)
Definition findOne_or (w : World) (k : nat) (c : Collection) (sch : Schema)
  (clauses : list Obj) : M (option Document) :=
  match clauses with
  | [f] => findOne w k c sch f
  | _ => throw MongoError
  end.

Definition findById (w : World) (k : nat) (c : Collection) (sch : Schema) (id : Value)
  : M (option Document) :=
  findOne w k c sch [("_id", id)].

Definition same_id (d d' : Doc) : bool := bool_decide (d !! "_id" = d' !! "_id").

Definition replace_doc (d : Doc) (l : list Doc) : list Doc :=
  List.map (fun d' => if same_id d d' then d else d') l.

(** [document.save()] as the [k]-th storage call: a document whose cast
    failed is rejected by validation; the storage layer may reject the write
    ([db_ok w k = false]: connection failure, a validator, a unique index);
    otherwise a new document is inserted (with its version key) and an
    existing one is replaced. *)
Definition save (w : World) (k : nat) (c : Collection) (d : Document) : M unit :=
  fun s =>
    if negb (cast_ok d) then (Throw CastError, s)
    else if negb (db_ok w k) then (Throw MongoError, s)
    else if isNew d then
      (Normal tt, set_collection c (collection c s ++ [<["__v" := Num 0]> (doc d)]) s)
    else (Normal tt, set_collection c (replace_doc (doc d) (collection c s)) s).

(** [document.path = v] *)
Definition set (d : Document) (k : string) (v : Value) : Document :=
  mkDocument (<[k := v]> (doc d)) (cast_ok d) (isNew d).

End Mongo.

(** ** server.js *)

Module Server.
Import Mongo.

(** The schemas, path by path.  [required], [unique], [enum] and the TTL
    index [expires: '24h'] on [createdAt] are enforced by the storage layer
    and are part of its verdict [db_ok].  Note that [ticketSchema] has no
    path [expiresAt]. *)
Definition userSchema : Schema :=
  [ mkPath "name" TString NoDefault;
    mkPath "email" TString NoDefault;
    mkPath "password" TString NoDefault;
    mkPath "phoneNumber" TString NoDefault;
    mkPath "faceImagePath" TString NoDefault;
    mkPath "createdAt" TDate DefaultNow ].

Definition ticketSchema : Schema :=
  [ mkPath "ticketId" TString NoDefault;
    mkPath "userId" TObjectId NoDefault;
    mkPath "source" TString NoDefault;
    mkPath "destination" TString NoDefault;
    mkPath "phoneNumber" TString NoDefault;
    mkPath "qrCode" TString NoDefault;
    mkPath "aadhaarNumber" TString NoDefault;
    mkPath "status" TString (DefaultValue (Str "active"));
    mkPath "bookingDate" TDate NoDefault;
    mkPath "createdAt" TDate DefaultNow ].

(** The identifiers bound at the top level of the module, by [const],
    [let] and function declarations, in the order of the file. *)
Definition module_scope : list string :=
  [ "express"; "qrcode"; "jwt"; "mongoose"; "bcrypt"; "cors"; "path";
    "bodyParser"; "twilio"; "Canvas"; "Image"; "faceapi"; "fs"; "app"; "PORT";
    "config"; "twilioClient"; "otpStore"; "userSchema"; "ticketSchema";
    "User"; "Ticket"; "authenticateToken"; "loadFaceModels"; "compareFaces" ].

(** The identifiers that Node.js provides to every module: the arguments
    of the module wrapper, the properties of the global object of Node.js
    and the global bindings of the language. *)
Definition node_globals : list string :=
  [ "exports"; "require"; "module"; "__filename"; "__dirname";
    "global"; "globalThis"; "process"; "console"; "Buffer";
    "setTimeout"; "clearTimeout"; "setInterval"; "clearInterval";
    "setImmediate"; "clearImmediate"; "queueMicrotask"; "structuredClone";
    "atob"; "btoa"; "performance"; "fetch"; "crypto"; "navigator";
    "AbortController"; "AbortSignal"; "Blob"; "BroadcastChannel";
    "DOMException"; "Event"; "EventTarget"; "FormData"; "Headers";
    "MessageChannel"; "MessageEvent"; "MessagePort"; "Request"; "Response";
    "TextDecoder"; "TextEncoder"; "URL"; "URLSearchParams"; "WebAssembly";
    "Object"; "Function"; "Array"; "Number"; "Boolean"; "String"; "Symbol";
    "BigInt"; "Date"; "Promise"; "RegExp"; "Error"; "AggregateError";
    "EvalError"; "RangeError"; "ReferenceError"; "SyntaxError"; "TypeError";
    "URIError"; "JSON"; "Math"; "Intl"; "Reflect"; "Proxy"; "Map"; "Set";
    "WeakMap"; "WeakSet"; "WeakRef"; "FinalizationRegistry"; "ArrayBuffer";
    "SharedArrayBuffer"; "Atomics"; "DataView"; "Int8Array"; "Uint8Array";
    "Uint8ClampedArray"; "Int16Array"; "Uint16Array"; "Int32Array";
    "Uint32Array"; "Float32Array"; "Float64Array"; "BigInt64Array";
    "BigUint64Array"; "undefined"; "NaN"; "Infinity"; "eval"; "isFinite";
    "isNaN"; "parseFloat"; "parseInt"; "decodeURI"; "decodeURIComponent";
    "encodeURI"; "encodeURIComponent"; "escape"; "unescape" ].

Definition bound (scope : list string) (x : string) : bool :=
  existsb (String.eqb x) scope.

(** Evaluating an identifier: a ReferenceError when nothing binds it. *)
Definition resolve (scope : list string) (x : string) : M unit :=
  if bound scope x then ret tt else throw (ReferenceError (x ++ " is not defined")).

(** The properties every object literal inherits from [Object.prototype]. *)
Definition Object_prototype : list string :=
  [ "constructor"; "__defineGetter__"; "__defineSetter__"; "hasOwnProperty";
    "__lookupGetter__"; "__lookupSetter__"; "isPrototypeOf";
    "propertyIsEnumerable"; "toString"; "valueOf"; "__proto__";
    "toLocaleString" ].

(** [otpStore[key]] *)
Definition otp_get (store : gmap string string) (key : string) : Value :=
  match store !! key with
  | Some v => Str v
  | None => if bound Object_prototype key then Native key else Undefined
  end.

Definition jbool (b : bool) : Json := JVal (Bool b).
Definition jstr (s : string) : Json := JVal (Str s).

(** An object literal as a token payload or a stored map: JSON drops the
    properties that are [undefined]. *)
Definition payload (o : Obj) : Doc :=
  list_to_map (List.filter (fun kv => negb (bool_decide (kv.2 = Undefined))) o).

(** *** authenticateToken *)

(** [req.user = decoded] *)
Definition with_user (req : Request) (d : Doc) : Request :=
  mkRequest (authorization req) (req_body req) (params_id req) d.

(** [req.headers.authorization?.split(' ')[1]] *)
Definition bearer (req : Request) : Value :=
  match authorization req with
  | Str h => nth 1 (List.map Str (split_space h)) Undefined
  | _ => Undefined
  end.

Definition authenticateToken (w : World) (req : Request)
  (next : Request -> M Response) : M Response :=
  let token := bearer req in
  if negb (truthy token) then
    send 401 [("success", jbool false); ("message", jstr "Access denied. No token provided.")]
  else
    match jwt_verify w (ToString w token) with
    | Some decoded => next (with_user req decoded)
    | None =>
        send 400 [("success", jbool false); ("message", jstr "Invalid token.")]
    end.

(** *** compareFaces *)

(** [Buffer.from(v, 'base64')] *)
Definition Buffer_from (v : Value) : M Value :=
  match v with
  | Str s => ret (Str s)
  | _ => throw (TypeError "The first argument must be of type string")
  end.

(** The Number that the literal [0.6] denotes. *)
Definition threshold : Q := 5404319552844595 # 9007199254740992.

(** The parameters and the constants of [compareFaces] itself. *)
Definition compareFaces_locals : list string :=
  [ "liveImageBase64"; "storedImagePath"; "liveImage"; "storedImage";
    "liveDetection"; "storedDetection"; "distance" ].

(** The body of [compareFaces], the identifiers in scope around it being
    [scope].  Each use of the identifier [canvas] is resolved in it. *)
Definition compareFaces_in (scope : list string) (w : World)
  (liveImageBase64 storedImagePath : Value) : M bool :=
  try_catch
    (resolve scope "canvas" ;;
     let! buf := Buffer_from liveImageBase64 in
     let! liveImage := lift (canvas_loadImage w buf) in
     resolve scope "canvas" ;;
     let! storedImage := lift (canvas_loadImage w storedImagePath) in
     let! liveDetection := lift (detectSingleFace w liveImage) in
     let! storedDetection := lift (detectSingleFace w storedImage) in
     match liveDetection, storedDetection with
     | Some l, Some s =>
         let distance := euclideanDistance w l s in
         ret (negb (Qle_bool threshold distance))
     | _, _ => ret false
     end)
    (fun error => ret false).

Definition server_scope : list string :=
  compareFaces_locals ++ module_scope ++ node_globals.

Definition compareFaces : World -> Value -> Value -> M bool :=
  compareFaces_in server_scope.

(** *** POST /send-otp *)

(** [Math.floor(100000 + Math.random() * 900000)] *)
Definition generate_otp (w : World) : Z :=
  Qfloor (Number_add w 100000 (Number_multiply w (Math_random w) 900000)).
Arguments generate_otp : simpl never.

Definition store_otp (key code : string) (due : Z) : M unit :=
  fun s => (Normal tt,
            mkState (<[key := code]> (otpStore s)) (timers s ++ [(due, key)])
                    (users s) (tickets s)).

Definition send_otp (w : World) (req : Request) : M Response :=
  let phoneNumber := field (req_body req) "phoneNumber" in
  let invalid :=
    send 400 [("success", jbool false);
              ("message", jstr "Valid phone number with country code is required (e.g., +91XXXXXXXXXX)")] in
  if negb (truthy phoneNumber) then invalid
  else
    let! plus := lift (startsWith phoneNumber "+") in
    if negb plus then invalid
    else
      let otp := generate_otp w in
      try_catch
        (lift (twilio_create w ("Your OTP code is: " ++ pretty otp) phoneNumber) ;;
         store_otp (ToString w phoneNumber) (pretty otp) (Date_now w 0 + 5 * 60 * 1000) ;;
         send 200 [("success", jbool true);
                   ("message", jstr "OTP sent successfully!");
                   ("otp", JVal (if strict_eq (NODE_ENV w) (Str "development")
                                 then Num otp else Undefined))])
        (fun error =>
           send 500 [("success", jbool false);
                     ("message", jstr "Error sending OTP.");
                     ("error", jstr (message error))]).

(** The callbacks of [setTimeout] that are due at time [t] run:
    [delete otpStore[phoneNumber]], each with the number it captured. *)
Definition run_timers (t : Z) (s : State) : State :=
  mkState
    (foldl (fun m p => delete p.2 m) (otpStore s)
           (List.filter (fun p : Z * string => Z.leb p.1 t) (timers s)))
    (List.filter (fun p : Z * string => negb (Z.leb p.1 t)) (timers s))
    (users s) (tickets s).

(** *** POST /verify-otp *)

Definition delete_otp (key : string) : M unit :=
  fun s => (Normal tt, mkState (delete key (otpStore s)) (timers s) (users s) (tickets s)).

Definition verify_otp (w : World) (req : Request) : M Response :=
  let phoneNumber := field (req_body req) "phoneNumber" in
  let otp := field (req_body req) "otp" in
  if negb (truthy phoneNumber) || negb (truthy otp) then
    send 400 [("success", jbool false); ("message", jstr "Phone number and OTP are required.")]
  else
    let! s := get_state in
    let key := ToString w phoneNumber in
    if negb (truthy (otp_get (otpStore s) key)) then
      send 400 [("success", jbool false); ("message", jstr "OTP expired or not requested.")]
    else
      let! code := lift (toString w otp) in
      if strict_eq (otp_get (otpStore s) key) (Str code) then
        delete_otp key ;;
        send 200 [("success", jbool true);
                  ("message", jstr "OTP verified successfully!");
                  ("token", jstr (jwt_sign w (payload [("phoneNumber", phoneNumber)])))]
      else
        send 400 [("success", jbool false); ("message", jstr "Invalid OTP.")].

(** *** POST /register *)

Definition register (w : World) (req : Request) : M Response :=
  let name := field (req_body req) "name" in
  let email := field (req_body req) "email" in
  let password := field (req_body req) "password" in
  try_catch
    (if negb (truthy name) || negb (truthy email) || negb (truthy password) then
       send 400 [("success", jbool false); ("message", jstr "All fields are required.")]
     else
       let! existingUser := findOne_or w 0 Users userSchema [[("email", email)]] in
       match existingUser with
       | Some _ =>
           send 400 [("success", jbool false);
                     ("message", jstr "Email or phone number already registered.")]
       | None =>
           let! hashedPassword := lift (bcrypt_hash w password) in
           let user := Model w (Date_now w 0) userSchema
                         [("name", name); ("email", email); ("password", Str hashedPassword)] in
           save w 1 Users user ;;
           let token := jwt_sign w (payload [("userId", get (doc user) "_id");
                                             ("email", get (doc user) "email")]) in
           send 201 [("success", jbool true);
                     ("message", jstr "User registered successfully");
                     ("token", jstr token);
                     ("user", JObj [("id", JVal (get (doc user) "_id"));
                                    ("name", JVal (get (doc user) "name"));
                                    ("email", JVal (get (doc user) "email"))])]
       end)
    (fun error =>
       send 500 [("success", jbool false);
                 ("message", jstr "Registration failed. Please try again.")]).

(** *** POST /login *)

Definition login (w : World) (req : Request) : M Response :=
  let email := field (req_body req) "email" in
  let password := field (req_body req) "password" in
  try_catch
    (if negb (truthy email) || negb (truthy password) then
       send 400 [("success", jbool false); ("message", jstr "Email and password are required.")]
     else
       let! found := findOne w 0 Users userSchema [("email", email)] in
       match found with
       | None =>
           send 401 [("success", jbool false); ("message", jstr "Invalid credentials.")]
       | Some user =>
           let! isMatch := lift (bcrypt_compare w password (get (doc user) "password")) in
           if negb isMatch then
             send 401 [("success", jbool false); ("message", jstr "Invalid credentials.")]
           else
             let token := jwt_sign w (payload [("userId", get (doc user) "_id");
                                               ("email", get (doc user) "email");
                                               ("phoneNumber", get (doc user) "phoneNumber")]) in
             send 200 [("success", jbool true);
                       ("message", jstr "Login successful");
                       ("token", jstr token);
                       ("user", JObj [("id", JVal (get (doc user) "_id"));
                                      ("name", JVal (get (doc user) "name"));
                                      ("email", JVal (get (doc user) "email"));
                                      ("phoneNumber", JVal (get (doc user) "phoneNumber"))])]
       end)
    (fun error =>
       send 500 [("success", jbool false); ("message", jstr "Login failed. Please try again.")]).

(** *** POST /create-ticket *)

Definition create_ticket_handler (w : World) (req : Request) : M Response :=
  let source := field (req_body req) "source" in
  let destination := field (req_body req) "destination" in
  let phoneNumber := field (req_body req) "phoneNumber" in
  let bookingDate := field (req_body req) "bookingDate" in
  let userId := get (user req) "userId" in
  if negb (truthy source) || negb (truthy destination)
     || negb (truthy phoneNumber) || negb (truthy bookingDate) then
    send 400 [("success", jbool false);
              ("message", jstr "All fields are required (source, destination, phoneNumber, bookingDate).")]
  else
    try_catch
      (let ticketData : Obj :=
         [("userId", userId); ("source", source); ("destination", destination);
          ("phoneNumber", phoneNumber); ("bookingDate", DateV (Date_parse w bookingDate))] in
       let! qrCode := lift (qrcode_toDataURL w ticketData) in
       let ticketId := "TKT-" ++ toUpperCase (toString36 (Date_now w 0)) in
       let expiresAt := DateV (Some (Date_now w 1 + 24 * 60 * 60 * 1000)) in
       let ticket := Model w (Date_now w 2) ticketSchema
                       ([("ticketId", Str ticketId)] ++ ticketData
                        ++ [("qrCode", Str qrCode); ("expiresAt", expiresAt)]) in
       save w 0 Tickets ticket ;;
       send 201 [("success", jbool true);
                 ("message", jstr "Ticket created successfully");
                 ("ticket", JObj [("ticketId", jstr ticketId);
                                  ("source", JVal source);
                                  ("destination", JVal destination);
                                  ("phoneNumber", JVal phoneNumber);
                                  ("bookingDate", JVal bookingDate);
                                  ("qrCode", jstr qrCode);
                                  ("createdAt", JVal (get (doc ticket) "createdAt"));
                                  ("expiresAt", JVal (get (doc ticket) "expiresAt"))])])
      (fun error =>
         send 500 [("success", jbool false); ("message", jstr "Failed to create ticket.")]).

Definition create_ticket (w : World) (req : Request) : M Response :=
  authenticateToken w req (create_ticket_handler w).

(** *** POST /verify-ticket *)

(** The handler, with the face comparison it awaits as [compare]. *)
Definition verify_ticket_with (compare : World -> Value -> Value -> M bool)
  (w : World) (req : Request) : M Response :=
  try_catch
    (let qrData := field (req_body req) "qrData" in
     let faceImage := field (req_body req) "faceImage" in
     let userId := get (user req) "userId" in
     let! found := findOne w 0 Tickets ticketSchema [("qrCode", qrData); ("userId", userId)] in
     match found with
     | None =>
         send 404 [("success", jbool false);
                   ("message", jstr "Ticket not found or doesn't belong to user")]
     | Some ticket =>
         let! owner := findById w 1 Users userSchema userId in
         let face := match owner with
                     | Some u => get (doc u) "faceImagePath"
                     | None => Undefined
                     end in
         if negb (truthy face) then
           send 400 [("success", jbool false); ("message", jstr "User face not registered")]
         else
           let! isMatch := compare w faceImage face in
           if negb isMatch then
             send 403 [("success", jbool false); ("message", jstr "Face verification failed")]
           else
             save w 2 Tickets (set ticket "status" (Str "used")) ;;
             send 200 [("success", jbool true); ("message", jstr "Ticket verified successfully")]
     end)
    (fun error =>
       send 500 [("success", jbool false);
                 ("message", jstr "Server error during ticket verification")]).

Definition verify_ticket (w : World) (req : Request) : M Response :=
  authenticateToken w req (verify_ticket_with compareFaces w).

(** *** GET /ticket/:id *)

Definition get_ticket_handler (w : World) (req : Request) : M Response :=
  try_catch
    (let! found := findOne w 0 Tickets ticketSchema [("ticketId", Str (params_id req))] in
     match found with
     | None => send 404 [("success", jbool false); ("message", jstr "Ticket not found.")]
     | Some ticket => send 200 [("success", jbool true); ("ticket", JDoc (doc ticket))]
     end)
    (fun error => send 500 [("success", jbool false); ("message", jstr "Server error.")]).

Definition get_ticket (w : World) (req : Request) : M Response :=
  authenticateToken w req (get_ticket_handler w).

End Server.
Export Mongo Server.

(** ** The error taxonomy of the specification *)

Module Spec.

Inductive ErrorKind :=
| ValidationError | ConflictError | AuthError | ForbiddenError
| NotFoundError | DeliveryError | InternalFault.

(** The HTTP statuses under which the specification reports each kind of
    error (its sections 6 and 7): ValidationError 400, ConflictError 400 or
    409, AuthError 401 or 400, ForbiddenError 403, NotFoundError 404,
    DeliveryError and InternalFault 500. *)
Definition statuses (k : ErrorKind) : list Z :=
  match k with
  | ValidationError => [400]
  | ConflictError => [400; 409]
  | AuthError => [401; 400]
  | ForbiddenError => [403]
  | NotFoundError => [404]
  | DeliveryError => [500]
  | InternalFault => [500]
  end.

Definition success_flag (r : Response) : option Json :=
  match body r with
  | JObj fs => jfield fs "success"
  | _ => None
  end.

(** A response reports a failure of kind [k]. *)
Definition fails_with (k : ErrorKind) (r : Response) : bool :=
  match success_flag r with
  | Some (JVal (Bool false)) => existsb (Z.eqb (status r)) (statuses k)
  | _ => false
  end.

End Spec.
Export Spec.

(** * Properties *)

Local Open Scope js_scope.

(** A request that passes [authenticateToken] with the claims [d]. *)
Definition authenticated (w : World) (req : Request) (d : Doc) : Prop :=
  truthy (bearer req) = true ∧ jwt_verify w (ToString w (bearer req)) = Some d.

(** ** Sample worlds, states and requests *)

(** A world in which every collaborator answers: the clock starts at
    2025-01-01T00:00:00Z, Twilio delivers, the storage layer accepts every
    call, both images show one face and the two descriptors are at distance
    0.3.  Two tokens verify, one for each of two users. *)
Definition sample_world : World := {|
  Date_now := fun k => 1735689600000 + Z.of_nat k;
  Date_parse := fun v =>
    match v with
    | Str s => if String.eqb s "2025-01-01" then Some 1735689600000 else None
    | Num n => Some n
    | _ => None
    end;
  Date_toString := fun _ => "Wed Jan 01 2025 00:00:00 GMT+0000";
  Math_random := 1 # 2;
  Number_multiply := Qmult;
  Number_add := Qplus;
  NODE_ENV := Str "production";
  jwt_sign := fun d => "signed.jwt.token";
  jwt_verify := fun t =>
    if String.eqb t "token-of-alice" then Some {[ "userId" := ObjectId "a11ce" ]}
    else if String.eqb t "token-of-bob" then Some {[ "userId" := ObjectId "b0b" ]}
    else None;
  bcrypt_hash := fun v => Normal "$2a$10$hash";
  bcrypt_compare := fun p h => Normal (bool_decide (p = Str "secret"));
  twilio_create := fun _ _ => Normal tt;
  qrcode_toDataURL := fun _ => Normal "data:image/png;base64,QR";
  new_ObjectId := "a11ce";
  ObjectId_from := fun _ => None;
  db_ok := fun _ => true;
  canvas_loadImage := fun v => Normal v;
  detectSingleFace := fun _ => Normal (Some [1 # 10]);
  euclideanDistance := fun _ _ => 3 # 10
|}.

Definition empty_state : State := mkState ∅ [] [] [].

Definition otp_request (phoneNumber otp : Value) : Request :=
  mkRequest Undefined [("phoneNumber", phoneNumber); ("otp", otp)] "" ∅.

Definition phone_request (phoneNumber : Value) : Request :=
  mkRequest Undefined [("phoneNumber", phoneNumber)] "" ∅.

(** The sample world with a Twilio that rejects every message. *)
Definition twilio_down : World := {|
  Date_now := Date_now sample_world;
  Date_parse := Date_parse sample_world;
  Date_toString := Date_toString sample_world;
  Math_random := Math_random sample_world;
  Number_multiply := Number_multiply sample_world;
  Number_add := Number_add sample_world;
  NODE_ENV := NODE_ENV sample_world;
  jwt_sign := jwt_sign sample_world;
  jwt_verify := jwt_verify sample_world;
  bcrypt_hash := bcrypt_hash sample_world;
  bcrypt_compare := bcrypt_compare sample_world;
  twilio_create := fun _ _ => Throw (mkError "RestException" "Authenticate");
  qrcode_toDataURL := qrcode_toDataURL sample_world;
  new_ObjectId := new_ObjectId sample_world;
  ObjectId_from := ObjectId_from sample_world;
  db_ok := db_ok sample_world;
  canvas_loadImage := canvas_loadImage sample_world;
  detectSingleFace := detectSingleFace sample_world;
  euclideanDistance := euclideanDistance sample_world
|}.

(** The sample world four minutes later. *)
Definition four_minutes_later : World := {|
  Date_now := fun k => Date_now sample_world k + 240000;
  Date_parse := Date_parse sample_world;
  Date_toString := Date_toString sample_world;
  Math_random := 1 # 4;
  Number_multiply := Number_multiply sample_world;
  Number_add := Number_add sample_world;
  NODE_ENV := NODE_ENV sample_world;
  jwt_sign := jwt_sign sample_world;
  jwt_verify := jwt_verify sample_world;
  bcrypt_hash := bcrypt_hash sample_world;
  bcrypt_compare := bcrypt_compare sample_world;
  twilio_create := twilio_create sample_world;
  qrcode_toDataURL := qrcode_toDataURL sample_world;
  new_ObjectId := new_ObjectId sample_world;
  ObjectId_from := ObjectId_from sample_world;
  db_ok := db_ok sample_world;
  canvas_loadImage := canvas_loadImage sample_world;
  detectSingleFace := detectSingleFace sample_world;
  euclideanDistance := euclideanDistance sample_world
|}.

Definition register_request (name email password : Value) : Request :=
  mkRequest Undefined [("name", name); ("email", email); ("password", password)] "" ∅.

Definition login_request (email password : Value) : Request :=
  mkRequest Undefined [("email", email); ("password", password)] "" ∅.

(** The user that a registration of "A" with a@x.com leaves in the sample world. *)
Definition alice : Doc :=
  {[ "_id" := ObjectId "a11ce"; "name" := Str "A"; "email" := Str "a@x.com";
     "password" := Str "$2a$10$hash";
     "createdAt" := DateV (Some 1735689600000); "__v" := Num 0 ]}.

(** The usual body: the success flag and a message. *)
Definition response (code : Z) (success : bool) (msg : string) : Response :=
  mkResponse code (JObj [("success", jbool success); ("message", jstr msg)]).

(** [t] is the first document of [l] that satisfies [P]. *)
Definition first_match (P : Doc → Prop) (l : list Doc) (t : Doc) : Prop :=
  ∃ l1 l2, l = (l1 ++ t :: l2)%list ∧ (∀ x, x ∈ l1 → ¬ P x) ∧ P t.

Definition has_code_and_owner (q h : string) (t : Doc) : Prop :=
  t !! "qrCode" = Some (Str q) ∧ t !! "userId" = Some (ObjectId h).

Definition has_id (h : string) (u : Doc) : Prop := u !! "_id" = Some (ObjectId h).

Definition has_ticketId (id : string) (t : Doc) : Prop := t !! "ticketId" = Some (Str id).

(** The state in which [t] has been given the status 'used' and saved. *)
Definition mark_used (t : Doc) (s : State) : State :=
  set_collection Tickets (replace_doc (<["status" := Str "used"]> t) (tickets s)) s.

Definition alice_with_face : Doc :=
  <["faceImagePath" := Str "uploads/face-a11ce-1.jpg"]> alice.

(** A ticket X to Y with the code "data:image/png;base64,QR". *)
Definition sample_ticket (owner st : string) : Doc :=
  {[ "_id" := ObjectId "7001"; "ticketId" := Str "TKT-M5D4RUO0";
     "userId" := ObjectId owner; "source" := Str "X"; "destination" := Str "Y";
     "phoneNumber" := Str "+911234567890";
     "qrCode" := Str "data:image/png;base64,QR"; "status" := Str st;
     "bookingDate" := DateV (Some 1735689600000);
     "createdAt" := DateV (Some 1735689600002); "__v" := Num 0 ]}.

Definition state_with (u t : Doc) : State := mkState ∅ [] [u] [t].

Definition verify_request (token : string) : Request :=
  mkRequest (Str ("Bearer " ++ token))
    [("qrData", Str "data:image/png;base64,QR"); ("faceImage", Str "bGl2ZQ==")] "" ∅.

Definition ticket_request (token id : string) : Request :=
  mkRequest (Str ("Bearer " ++ token)) [] id ∅.

Definition create_request (token : string) : Request :=
  mkRequest (Str ("Bearer " ++ token))
    [("source", Str "X"); ("destination", Str "Y");
     ("phoneNumber", Str "+911234567890"); ("bookingDate", Str "2025-01-01")] "" ∅.

(** A matcher that works: [compareFaces] in a module that binds [canvas]. *)
Definition working_compareFaces : World → Value → Value → M bool :=
  compareFaces_in ("canvas" :: server_scope).

(** The ticket that /create-ticket builds for the user [h]. *)
Definition built_ticket (w : World) (h : string) (source destination phoneNumber : Value)
  (date : Z) (qrCode : string) : Doc :=
  <["_id" := ObjectId (new_ObjectId w)]>
    (<["ticketId" := Str ("TKT-" ++ toUpperCase (toString36 (Date_now w 0)))]>
       (<["userId" := ObjectId h]>
          (<["source" := Str (ToString w source)]>
             (<["destination" := Str (ToString w destination)]>
                (<["phoneNumber" := Str (ToString w phoneNumber)]>
                   (<["qrCode" := Str qrCode]>
                      (<["status" := Str "active"]>
                         (<["bookingDate" := DateV (Some date)]>
                            (<["createdAt" := DateV (Some (Date_now w 2))]> ∅))))))))).

(** Reading a string of base-36 digits, in either case, most significant
    digit first: the inverse of [toString(36)], used to state that it loses
    nothing. *)
Definition digit_value (c : ascii) : option Z :=
  let n := Z.of_nat (nat_of_ascii c) in
  if (48 <=? n)%Z && (n <=? 57)%Z then Some (n - 48)%Z
  else if (97 <=? n)%Z && (n <=? 122)%Z then Some (n - 87)%Z
  else if (65 <=? n)%Z && (n <=? 90)%Z then Some (n - 55)%Z
  else None.

Fixpoint parse36_go (s : string) (acc : Z) : option Z :=
  match s with
  | EmptyString => Some acc
  | String c r =>
      match digit_value c with
      | Some d => parse36_go r (acc * 36 + d)%Z
      | None => None
      end
  end.

Definition parse36 (s : string) : option Z := parse36_go s 0.

(** A string without a space. *)
Fixpoint no_space (s : string) : bool :=
  match s with
  | EmptyString => true
  | String c r => negb (Ascii.eqb c " "%char) && no_space r
  end.

(** ** POST /register-face

    The handler writes the image under [uploads/] and records its path in
    the user.  The file system is a set of directories and a map from paths
    to contents; a content is kept as the base64 text that was written. *)
Record Disk := mkDisk {
  dirs : gset string;
  files : gmap string string
}.

(** The file-system side of a request: [__dirname], and whether the [k]-th
    call that writes (mkdirSync, writeFileSync) succeeds. *)
Record Fs := mkFs {
  dirname : string;
  fs_ok : nat → bool
}.

(** [path.join(a, b)] for a directory and a plain file name *)
Definition path_join (a b : string) : string := a ++ "/" ++ b.

(** [s] without the prefix [p], when it starts with it. *)
Fixpoint drop_prefix (p s : string) : option string :=
  match p, s with
  | EmptyString, _ => Some s
  | String a p', String b s' => if Ascii.eqb a b then drop_prefix p' s' else None
  | String _ _, EmptyString => None
  end.

(** The class [\w] of a regular expression *)
Definition is_word (c : ascii) : bool :=
  let n := nat_of_ascii c in
  ((48 <=? n) && (n <=? 57) || (65 <=? n) && (n <=? 90)
   || (97 <=? n) && (n <=? 122) || (n =? 95))%nat.

Fixpoint skip_word (s : string) : string :=
  match s with
  | EmptyString => EmptyString
  | String c r => if is_word c then skip_word r else s
  end.

(** [image.replace(/^data:image\/\w+;base64,/, '')]: the longest run of word
    characters after [data:image/] must be non-empty and followed by
    [;base64,] (no shorter run can be, [;] not being a word character). *)
Definition strip_data_url (s : string) : string :=
  match drop_prefix "data:image/" s with
  | Some (String c r) =>
      if is_word c then
        match drop_prefix ";base64," (skip_word r) with
        | Some data => data
        | None => s
        end
      else s
  | _ => s
  end.

(** The first document that satisfies [f], replaced by its image under [g]. *)
Fixpoint update_first (f : Doc → bool) (g : Doc → Doc) (l : list Doc) : list Doc :=
  match l with
  | [] => []
  | d :: r => if f d then g d :: r else d :: update_first f g r
  end.

(** [User.findByIdAndUpdate(id, { path: v })] as the [k]-th storage call:
    the value is cast to the type of its path (a path outside the schema is
    dropped) and set in the first user whose [_id] matches; when none
    matches nothing is written and [null] is returned, without an error. *)
Definition cast_update (w : World) (sch : Schema) (path : string) (v : Value)
  : option (Doc → Doc) :=
  match path_type sch path with
  | None => Some (fun d => d)
  | Some ty =>
      match cast w ty v with
      | Some v' => Some (insert path v')
      | None => None
      end
  end.

Definition findByIdAndUpdate (w : World) (k : nat) (id : Value) (path : string) (v : Value)
  : M (option Doc) :=
  fun s =>
    match cast_filter w userSchema [("_id", id)], cast_update w userSchema path v with
    | Some f, Some g =>
        if db_ok w k then
          (Normal (List.find (matches f) (users s)),
           set_collection Users (update_first (matches f) g (users s)) s)
        else (Throw MongoError, s)
    | _, _ => (Throw CastError, s)
    end.

Definition register_face_handler (w : World) (fs : Fs) (req : Request)
  (disk : Disk) (s : State) : Completion Response * Disk * State :=
  let userId := get (user req) "userId" in
  let image := field (req_body req) "image" in
  let failed := response 500 false "Failed to register face." in
  if negb (truthy image) then
    (Normal (response 400 false "Image is required."), disk, s)
  else
    let uploadDir := path_join (dirname fs) "uploads" in
    let made :=
      if bool_decide (uploadDir ∈ dirs disk) then Some disk
      else if fs_ok fs 0 then Some (mkDisk ({[ uploadDir ]} ∪ dirs disk) (files disk))
      else None in
    match made with
    | None => (Normal failed, disk, s)
    | Some disk1 =>
        let fileName := "face-" ++ ToString w userId ++ "-" ++ pretty (Date_now w 0) ++ ".jpg" in
        let filePath := path_join uploadDir fileName in
        match image with
        | Str img =>
            let base64Data := strip_data_url img in
            if fs_ok fs 1 then
              let disk2 := mkDisk (dirs disk1) (<[filePath := base64Data]> (files disk1)) in
              match findByIdAndUpdate w 0 userId "faceImagePath" (Str filePath) s with
              | (Normal _, s') =>
                  (Normal (response 200 true "Face registered successfully"), disk2, s')
              | (Throw _, s') => (Normal failed, disk2, s')
              end
            else (Normal failed, disk1, s)
        | _ => (Normal failed, disk1, s)
        end
    end.

Definition sample_fs : Fs := mkFs "/app" (fun _ => true).

Definition face_request (image : Value) (claims : Doc) : Request :=
  mkRequest (Str "Bearer token-of-alice") [("image", image)] "" claims.

(** The path under which the handler saves the face of the user [h]. *)
Definition face_path (w : World) (fs : Fs) (h : string) : string :=
  path_join (path_join (dirname fs) "uploads")
    ("face-" ++ h ++ "-" ++ pretty (Date_now w 0) ++ ".jpg").

(** The sample world with the storage layer refusing every call. *)
Definition storage_down : World := {|
  Date_now := Date_now sample_world;
  Date_parse := Date_parse sample_world;
  Date_toString := Date_toString sample_world;
  Math_random := Math_random sample_world;
  Number_multiply := Number_multiply sample_world;
  Number_add := Number_add sample_world;
  NODE_ENV := NODE_ENV sample_world;
  jwt_sign := jwt_sign sample_world;
  jwt_verify := jwt_verify sample_world;
  bcrypt_hash := bcrypt_hash sample_world;
  bcrypt_compare := bcrypt_compare sample_world;
  twilio_create := twilio_create sample_world;
  qrcode_toDataURL := qrcode_toDataURL sample_world;
  new_ObjectId := new_ObjectId sample_world;
  ObjectId_from := ObjectId_from sample_world;
  db_ok := fun _ => false;
  canvas_loadImage := canvas_loadImage sample_world;
  detectSingleFace := detectSingleFace sample_world;
  euclideanDistance := euclideanDistance sample_world
|}.

(** The sample world with [bcrypt.compare] as bcryptjs has it: arguments
    that are not both strings are refused with an error. *)
Definition bcrypt_strict : World := {|
  Date_now := Date_now sample_world;
  Date_parse := Date_parse sample_world;
  Date_toString := Date_toString sample_world;
  Math_random := Math_random sample_world;
  Number_multiply := Number_multiply sample_world;
  Number_add := Number_add sample_world;
  NODE_ENV := NODE_ENV sample_world;
  jwt_sign := jwt_sign sample_world;
  jwt_verify := jwt_verify sample_world;
  bcrypt_hash := bcrypt_hash sample_world;
  bcrypt_compare := fun p h =>
    match p, h with
    | Str _, Str _ => bcrypt_compare sample_world p h
    | _, _ => Throw (mkError "Error" "Illegal arguments")
    end;
  twilio_create := twilio_create sample_world;
  qrcode_toDataURL := qrcode_toDataURL sample_world;
  new_ObjectId := new_ObjectId sample_world;
  ObjectId_from := ObjectId_from sample_world;
  db_ok := db_ok sample_world;
  canvas_loadImage := canvas_loadImage sample_world;
  detectSingleFace := detectSingleFace sample_world;
  euclideanDistance := euclideanDistance sample_world
|}.

(** The sample world with the tokens of /verify-otp: a payload that holds a
    phone number and no user id is signed as [otp.<number>], and such a token
    verifies to that payload. *)
Definition otp_tokens : World := {|
  Date_now := Date_now sample_world;
  Date_parse := Date_parse sample_world;
  Date_toString := Date_toString sample_world;
  Math_random := Math_random sample_world;
  Number_multiply := Number_multiply sample_world;
  Number_add := Number_add sample_world;
  NODE_ENV := NODE_ENV sample_world;
  jwt_sign := fun d =>
    match d !! "phoneNumber", d !! "userId" with
    | Some (Str p), None => "otp." ++ p
    | _, _ => jwt_sign sample_world d
    end;
  jwt_verify := fun t =>
    match drop_prefix "otp." t with
    | Some p => Some {[ "phoneNumber" := Str p ]}
    | None => jwt_verify sample_world t
    end;
  bcrypt_hash := bcrypt_hash sample_world;
  bcrypt_compare := bcrypt_compare sample_world;
  twilio_create := twilio_create sample_world;
  qrcode_toDataURL := qrcode_toDataURL sample_world;
  new_ObjectId := new_ObjectId sample_world;
  ObjectId_from := ObjectId_from sample_world;
  db_ok := db_ok sample_world;
  canvas_loadImage := canvas_loadImage sample_world;
  detectSingleFace := detectSingleFace sample_world;
  euclideanDistance := euclideanDistance sample_world
|}.

(** ** Examples of the helpers *)

Example split_bearer : split_space "Bearer abc.def" = ["Bearer"; "abc.def"].
Proof. reflexivity. Qed.

Example ticket_id_example :
  "TKT-" ++ toUpperCase (toString36 1735689600000) = "TKT-M5D4RUO0".
Proof. vm_compute. reflexivity. Qed.

Lemma authenticateToken_pass w req d next :
  authenticated w req d →
  authenticateToken w req next = next (with_user req d).
Proof.
  intros [Ht Hv]. unfold authenticateToken. rewrite Ht, Hv. reflexivity.
Qed.

(** ** The generated code *)

Lemma is_double_below_one r : is_double r → (r < 1)%Q → (r <= below_one)%Q.
Proof.
  intros (m & s & Hm & Hs & Hq) H1. rewrite Hq in *. clear Hq r.
  unfold Qlt in H1. unfold Qle, below_one. cbn [Qnum Qden] in *.
  change (Z.pos 9007199254740992) with (2 ^ 53)%Z.
  change 9007199254740991%Z with (2 ^ 53 - 1)%Z.
  rewrite !Pos2Z.inj_pow in *.
  set (P := (2 ^ 1021)%Z).
  assert (HP : (0 < P)%Z) by (apply Z.pow_pos_nonneg; lia).
  assert (E : (Z.pos 2 ^ Z.pos 1074 = 2 ^ 53 * P)%Z).
  { unfold P. rewrite <- Z.pow_add_r by lia. reflexivity. }
  rewrite E in *. clear E.
  destruct (Z_le_gt_dec s 1021) as [Hle | Hgt].
  - assert ((0 < 2 ^ s ≤ P)%Z).
    { split; [apply Z.pow_pos_nonneg; lia |]. apply Z.pow_le_mono_r; lia. }
    assert ((m ≤ 2 ^ 53 - 1)%Z) by lia.
    assert ((m * 2 ^ s ≤ (2 ^ 53 - 1) * P)%Z).
    { destruct (Z_le_gt_dec m 0).
      - assert ((m * 2 ^ s ≤ 0)%Z) by nia. nia.
      - nia. }
    nia.
  - assert (Es : (2 ^ s = 2 ^ (s - 1022) * (2 * P))%Z).
    { replace s with ((s - 1022) + 1022)%Z at 1 by lia.
      rewrite Z.pow_add_r by lia. f_equal. }
    assert ((0 < 2 ^ (s - 1022))%Z) by (apply Z.pow_pos_nonneg; lia).
    set (k := (m * 2 ^ (s - 1022))%Z) in *.
    assert (Ek : (m * 2 ^ s = k * (2 * P))%Z) by (rewrite Es; unfold k; ring).
    rewrite Ek in *.
    assert ((k < 2 ^ 52)%Z) by (change (2 ^ 53)%Z with (2 * 2 ^ 52)%Z in H1; nia).
    change (2 ^ 53)%Z with (2 * 2 ^ 52)%Z.
    nia.
Qed.

(** A nearest double lies on the same side of every double as the real it
    rounds, and no farther from the real than that double. *)
Lemma nearest_bounds q f g :
  round_nearest q f → is_double g →
  ((q <= g → f <= g ∧ 2 * q - g <= f) ∧ (g <= q → g <= f ∧ f <= 2 * q - g))%Q.
Proof.
  intros [_ Hn] Hg. specialize (Hn g Hg).
  split; intros Hle.
  - rewrite (Qabs_pos (g - q)) in Hn by lra.
    apply Qabs_Qle_condition in Hn. lra.
  - rewrite (Qabs_neg (g - q)) in Hn by lra.
    apply Qabs_Qle_condition in Hn. lra.
Qed.

Lemma is_double_Z (m : Z) : (Z.abs m < 2 ^ 53)%Z → is_double (inject_Z m).
Proof.
  intros Hm. exists m, 1074%Z. split; [assumption |]. split; [lia |].
  unfold Qeq, inject_Z. cbn [Qnum Qden]. rewrite Pos2Z.inj_pow. ring.
Qed.

Lemma is_double_33 (m : Z) : (Z.abs m < 2 ^ 53)%Z → is_double (m # 2 ^ 33).
Proof.
  intros Hm. exists m, 1041%Z. split; [assumption |]. split; [lia |].
  unfold Qeq. cbn [Qnum Qden]. rewrite !Pos2Z.inj_pow.
  change (Z.pos 1074) with (1041 + 33)%Z. rewrite Z.pow_add_r by lia.
  change (Z.pos 2) with 2%Z. change (Z.pos 33) with 33%Z. ring.
Qed.

(** The bounds of [Math.floor(100000 + r * 900000)] when the product and the
    sum are each rounded to a nearest double. *)
Lemma floor_bounds_double r p x :
  is_double r → (0 <= r)%Q → (r < 1)%Q →
  round_nearest (r * 900000) p →
  round_nearest (100000 + p) x →
  (100000 ≤ Qfloor x ≤ 999999)%Z.
Proof.
  intros Hr H0 H1 Hp Hx.
  pose proof (is_double_below_one r Hr H1) as Hb. unfold below_one in Hb.
  set (q := (r * 900000)%Q) in *.
  assert (Hq : (0 <= q ∧ q <= 900000 - (85 # 100) * (1 # 8589934592))%Q).
  { unfold q. split; [apply Qmult_le_0_compat; [assumption | discriminate] |]. lra. }
  destruct Hq as [Hq1 Hq2].
  destruct (nearest_bounds q p 0 Hp (is_double_Z 0 eq_refl)) as [_ Hp0].
  destruct (Hp0 Hq1) as [Hp_lo _]. clear Hp0.
  pose proof (nearest_bounds q p _ Hp (is_double_33 (900000 * 2 ^ 33 - 1) eq_refl))
    as [Hpa Hpb].
  vm_compute (900000 * 2 ^ 33 - 1)%Z in Hpa, Hpb.
  vm_compute (2 ^ 33)%positive in Hpa, Hpb.
  assert (Hp_hi : (p <= 900000 - (7 # 10) * (1 # 8589934592))%Q).
  { destruct (Qlt_le_dec (7730941132799999 # 8589934592) q) as [Hlt | Hle].
    - destruct (Hpb (Qlt_le_weak _ _ Hlt)) as [_ H]. lra.
    - destruct (Hpa Hle) as [H _]. lra. }
  clear Hpa Hpb.
  set (q2 := (100000 + p)%Q) in *.
  assert (Hs1 : (100000 <= q2)%Q) by (unfold q2; lra).
  assert (Hs2 : (q2 <= 1000000 - (7 # 10) * (1 # 8589934592))%Q) by (unfold q2; lra).
  destruct (nearest_bounds q2 x _ Hx (is_double_Z 100000 eq_refl)) as [_ Hx0].
  destruct (Hx0 Hs1) as [Hx_lo _]. clear Hx0.
  pose proof (nearest_bounds q2 x _ Hx (is_double_33 (1000000 * 2 ^ 33 - 1) eq_refl))
    as [Hxa Hxb].
  vm_compute (1000000 * 2 ^ 33 - 1)%Z in Hxa, Hxb.
  vm_compute (2 ^ 33)%positive in Hxa, Hxb.
  assert (Hx_hi : (x < 1000000)%Q).
  { destruct (Qlt_le_dec (8589934591999999 # 8589934592) q2) as [Hlt | Hle].
    - destruct (Hxb (Qlt_le_weak _ _ Hlt)) as [_ H]. lra.
    - destruct (Hxa Hle) as [H _]. lra. }
  split.
  - change 100000%Z with (Qfloor 100000). apply Qfloor_resp_le; assumption.
  - cut (Qfloor x < 1000000)%Z; [lia |].
    rewrite Zlt_Qlt. eapply Qle_lt_trans; [apply Qfloor_le | exact Hx_hi].
Qed.

(** C9: every code generated by /send-otp has six digits.  For every Number
    [r] in [0,1) that the random source returns, the product [r * 900000] and
    the sum with 100000 being rounded to a nearest double as the arithmetic
    of Numbers does, [Math.floor(100000 + r * 900000)] lies between 100000
    and 999999 inclusive. *)
Theorem generate_otp_six_digits (w : World) :
  let r := Math_random w in
  let product := Number_multiply w r 900000 in
  let sum := Number_add w 100000 product in
  is_double r → (0 <= r)%Q → (r < 1)%Q →
  round_nearest (r * 900000) product →
  round_nearest (100000 + product) sum →
  (100000 ≤ generate_otp w ≤ 999999)%Z.
Proof.
  intros r product sum Hr H0 H1 Hp Hs.
  exact (floor_bounds_double r product sum Hr H0 H1 Hp Hs).
Qed.

Lemma is_double_eq q q' : is_double q → (q == q')%Q → is_double q'.
Proof.
  intros (m & s & Hm & Hs & Hq) E. exists m, s.
  split; [assumption |]. split; [assumption |]. by rewrite <- E.
Qed.

(** An exact result that is a double is its own rounding. *)
Lemma round_nearest_exact (q f : Q) (n : Z) :
  (Z.abs n < 2 ^ 53)%Z → (q == inject_Z n)%Q → (f == inject_Z n)%Q → round_nearest q f.
Proof.
  intros Hn Hq Hf. split.
  - apply (is_double_eq (inject_Z n)); [by apply is_double_Z | by symmetry].
  - intros g _. assert (E : (f - q == 0)%Q) by (rewrite Hq, Hf; ring).
    rewrite E. apply Qabs_nonneg.
Qed.

Lemma generate_otp_six_digits_witness :
  (100000 ≤ generate_otp sample_world ≤ 999999)%Z.
Proof.
  apply generate_otp_six_digits.
  - exists 1%Z, 1073%Z. split; [reflexivity |]. split; [lia |]. by vm_compute.
  - discriminate.
  - reflexivity.
  - apply (round_nearest_exact _ _ 450000); reflexivity.
  - apply (round_nearest_exact _ _ 550000); reflexivity.
Defined.

(** With exact arithmetic the bounds hold for every rational in [0,1). *)
Lemma floor_bounds_exact (r : Q) :
  (0 <= r)%Q → (r < 1)%Q → (100000 ≤ Qfloor (100000 + r * 900000) ≤ 999999)%Z.
Proof.
  intros H0 H1. split.
  - change 100000%Z with (Qfloor 100000) at 1. apply Qfloor_resp_le. lra.
  - cut (Qfloor (100000 + r * 900000) < 1000000)%Z; [lia |].
    rewrite Zlt_Qlt. eapply Qle_lt_trans; [apply Qfloor_le |].
    change (inject_Z 1000000) with 1000000%Q. lra.
Qed.

(** ** The face matcher *)

(** In a module that binds [canvas], the matcher answers [true] exactly when
    both images load, a face is detected in each and the distance of the two
    descriptors is below the threshold; it never throws and leaves the state
    as it is. *)
Lemma compareFaces_in_bound scope w live stored s :
  bound scope "canvas" = true →
  ∃ b, compareFaces_in scope w live stored s = (Normal b, s) ∧
       (b = true ↔
        ∃ base64 liveImage storedImage l d,
          live = Str base64 ∧
          canvas_loadImage w live = Normal liveImage ∧
          canvas_loadImage w stored = Normal storedImage ∧
          detectSingleFace w liveImage = Normal (Some l) ∧
          detectSingleFace w storedImage = Normal (Some d) ∧
          (euclideanDistance w l d < threshold)%Q).
Proof.
  intros Hb. unfold compareFaces_in, try_catch, bind, resolve, lift, Buffer_from.
  rewrite Hb. cbn.
  destruct live as [| |b|n|base64|t|h|n];
    try (eexists; split; [reflexivity |];
         split; [discriminate | intros (? & ? & ? & ? & ? & ? & _); discriminate]).
  cbn.
  destruct (canvas_loadImage w (Str base64)) as [liveImage|e] eqn:E1; cbn;
    [| eexists; split; [reflexivity |];
       split; [discriminate | intros (? & ? & ? & ? & ? & _ & ? & _); discriminate]].
  destruct (canvas_loadImage w stored) as [storedImage|e] eqn:E2; cbn;
    [| eexists; split; [reflexivity |];
       split; [discriminate | intros (? & ? & ? & ? & ? & _ & _ & ? & _); discriminate]].
  destruct (detectSingleFace w liveImage) as [ld|e] eqn:E3; cbn;
    [| eexists; split; [reflexivity |];
       split; [discriminate |
               intros (? & ? & ? & ? & ? & _ & H1 & _ & H3 & _);
               injection H1 as <-; congruence]].
  destruct (detectSingleFace w storedImage) as [sd|e] eqn:E4; cbn;
    [| eexists; split; [reflexivity |];
       split; [discriminate |
               intros (? & ? & ? & ? & ? & _ & _ & H2 & _ & H4 & _);
               injection H2 as <-; congruence]].
  destruct ld as [l|], sd as [d|]; cbn;
    try (eexists; split; [reflexivity |];
         split; [discriminate |
                 intros (? & ? & ? & ? & ? & _ & H1 & H2 & H3 & H4 & _);
                 injection H1 as <-; injection H2 as <-; congruence]).
  eexists; split; [reflexivity |]. split.
  - intros Hlt. exists base64, liveImage, storedImage, l, d.
    repeat split; try assumption.
    apply Qnot_le_lt. intros Hle. apply Qle_bool_iff in Hle.
    rewrite Hle in Hlt. discriminate.
  - intros (? & ? & ? & l' & d' & _ & H1 & H2 & H3 & H4 & Hlt).
    injection H1 as <-; injection H2 as <-.
    rewrite E3 in H3; injection H3 as <-. rewrite E4 in H4; injection H4 as <-.
    destruct (Qle_bool threshold (euclideanDistance w l d)) eqn:Hle; [| reflexivity].
    apply Qle_bool_iff in Hle. exfalso. eapply Qlt_not_le; eassumption.
Qed.

(** Nothing binds the identifier [canvas] in server.js. *)
Lemma canvas_unbound : bound server_scope "canvas" = false.
Proof. reflexivity. Qed.

(** C5: in server.js the matcher answers [false] on every pair of images:
    evaluating [canvas] raises a ReferenceError, which the [catch] turns
    into the answer [false].  So it never throws, and it also rejects two
    images of one face whose descriptors are below the threshold. *)
Theorem compareFaces_always_false w live stored s :
  compareFaces w live stored s = (Normal false, s).
Proof.
  unfold compareFaces, compareFaces_in, try_catch, bind, resolve.
  rewrite canvas_unbound.
  unfold throw, ret. reflexivity.
Qed.

(** The same two images, at distance 0.3, match as soon as [canvas] is bound. *)
Example compareFaces_close_faces :
  working_compareFaces sample_world
    (Str "bGl2ZQ==") (Str "uploads/face-a11ce-1.jpg") empty_state
  = (Normal true, empty_state)
  ∧ compareFaces sample_world
      (Str "bGl2ZQ==") (Str "uploads/face-a11ce-1.jpg") empty_state
    = (Normal false, empty_state).
Proof. split; reflexivity. Qed.

(** ** One-time codes *)

Lemma toString_truthy w v : truthy v = true → toString w v = Normal (ToString w v).
Proof. destruct v; cbn; intros; (discriminate || reflexivity). Qed.

Lemma String_eqb_empty (c : string) : c ≠ "" → String.eqb c "" = false.
Proof. intros H. destruct c; [congruence | reflexivity]. Qed.

Lemma foldl_delete_None (l : list (Z * string)) (m : gmap string string) k :
  m !! k = None → foldl (fun m p => delete p.2 m) m l !! k = None.
Proof.
  revert m. induction l as [|a l IH]; intros m H; cbn; [assumption |].
  apply IH. rewrite lookup_delete. case_decide; [reflexivity | assumption].
Qed.

Lemma foldl_delete_in (l : list (Z * string)) (m : gmap string string) k :
  k ∈ l.*2 → foldl (fun m p => delete p.2 m) m l !! k = None.
Proof.
  revert m. induction l as [|a l IH]; intros m H; cbn in *.
  - inversion H.
  - apply elem_of_cons in H as [-> | H].
    + apply foldl_delete_None. apply lookup_delete_eq.
    + by apply IH.
Qed.

Lemma foldl_delete_notin (l : list (Z * string)) (m : gmap string string) k :
  k ∉ l.*2 → foldl (fun m p => delete p.2 m) m l !! k = m !! k.
Proof.
  revert m. induction l as [|a l IH]; intros m H; cbn in *; [reflexivity |].
  apply not_elem_of_cons in H as [Hne Hl].
  rewrite IH by assumption. by apply lookup_delete_ne.
Qed.

(** No timer is cancelled: the timer of an earlier request for the same
    number purges the code of a later one.  A second code sent four minutes
    after the first is gone one minute later. *)
Example stale_timer_purges_newer_code :
  ∃ r1 s1 r2 s2,
    send_otp sample_world (phone_request (Str "+911234567891")) empty_state = (Normal r1, s1)
    ∧ send_otp four_minutes_later (phone_request (Str "+911234567891")) s1 = (Normal r2, s2)
    ∧ otpStore s2 !! "+911234567891" = Some "325000"
    ∧ otpStore (run_timers (1735689600000 + 300000) s2) !! "+911234567891" = None.
Proof.
  do 4 eexists. split; [by vm_compute |]. split; [by vm_compute |].
  split; by vm_compute.
Qed.

(** C3 as stated fails: with no code stored for the number,
    /verify-otp answers 400, which is not the status of NotFoundError. *)
Lemma verify_otp_unknown_number_400 :
  otpStore empty_state !! "+911234567891" = None ∧
  ∃ r, verify_otp sample_world (otp_request (Str "+911234567891") (Str "123456")) empty_state
       = (Normal r, empty_state) ∧
       status r = 400 ∧ fails_with NotFoundError r = false.
Proof. split; [reflexivity |]. eexists. split; [reflexivity |]. split; reflexivity. Qed.

(** C3 (amended): /verify-otp consumes a stored code exactly on success.
    When the submitted code equals the stored one, the entry is deleted and
    200 with a signed token is returned, so that a second verification with
    the same code fails, with status 400 (not the 404 of NotFoundError).
    When no code is stored for the number it fails with status 400 and the
    store is unchanged.  When the code differs it fails with status 400
    (ValidationError) and the stored code remains. *)
Theorem verify_otp_single_use w s req :
  let phoneNumber := field (req_body req) "phoneNumber" in
  let otp := field (req_body req) "otp" in
  let key := ToString w phoneNumber in
  truthy phoneNumber = true → truthy otp = true →
  (∀ code, otpStore s !! key = Some code → code ≠ "" → ToString w otp = code →
     let s' := mkState (delete key (otpStore s)) (timers s) (users s) (tickets s) in
     verify_otp w req s
     = (Normal (mkResponse 200
          (JObj [("success", jbool true);
                 ("message", jstr "OTP verified successfully!");
                 ("token", jstr (jwt_sign w (payload [("phoneNumber", phoneNumber)])))])), s')
     ∧ ∃ r2, verify_otp w req s' = (Normal r2, s') ∧ status r2 = 400
             ∧ fails_with NotFoundError r2 = false)
  ∧ (otpStore s !! key = None →
     ∃ r, verify_otp w req s = (Normal r, s) ∧ status r = 400
          ∧ fails_with NotFoundError r = false)
  ∧ (∀ code, otpStore s !! key = Some code → ToString w otp ≠ code →
     ∃ r, verify_otp w req s = (Normal r, s) ∧ status r = 400
          ∧ fails_with ValidationError r = true).
Proof.
  intros phoneNumber otp key Hp Ho.
  assert (Hnone : ∀ s0, otpStore s0 !! key = None →
            ∃ r, verify_otp w req s0 = (Normal r, s0) ∧ status r = 400
                 ∧ fails_with NotFoundError r = false).
  { intros s0 H0. unfold verify_otp, bind, get_state, send, ret, lift.
    fold phoneNumber otp key. rewrite Hp, Ho. cbn.
    unfold otp_get. rewrite H0.
    destruct (bound Object_prototype key); cbn.
    - rewrite (toString_truthy _ _ Ho). cbn.
      eexists; repeat split; reflexivity.
    - eexists; repeat split; reflexivity. }
  split; [| split].
  - intros code Hc Hne Heq s'. split.
    + unfold verify_otp, bind, get_state, send, ret, lift, delete_otp.
      fold phoneNumber otp key. rewrite Hp, Ho. cbn.
      unfold otp_get. rewrite Hc. cbn. rewrite (String_eqb_empty _ Hne). cbn.
      rewrite (toString_truthy _ _ Ho), Heq. cbn.
      unfold strict_eq. rewrite bool_decide_eq_true_2 by reflexivity.
      destruct phoneNumber; try discriminate; reflexivity.
    + apply Hnone. cbn. apply lookup_delete_eq.
  - apply Hnone.
  - intros code Hc Hne.
    unfold verify_otp, bind, get_state, send, ret, lift.
    fold phoneNumber otp key. rewrite Hp, Ho. cbn.
    unfold otp_get. rewrite Hc. cbn.
    destruct (String.eqb code ""); cbn.
    + eexists; repeat split; reflexivity.
    + rewrite (toString_truthy _ _ Ho). cbn.
      unfold strict_eq. rewrite bool_decide_eq_false_2 by congruence.
      eexists; repeat split; reflexivity.
Qed.

Lemma verify_otp_single_use_witness :
  verify_otp sample_world (otp_request (Str "+911234567891") (Str "123456"))
    (mkState {[ "+911234567891" := "123456" ]} [] [] [])
  = (Normal (mkResponse 200
       (JObj [("success", jbool true);
              ("message", jstr "OTP verified successfully!");
              ("token", jstr "signed.jwt.token")])),
     mkState (delete "+911234567891" {[ "+911234567891" := "123456" ]}) [] [] []).
Proof.
  destruct (verify_otp_single_use sample_world
              (mkState {[ "+911234567891" := "123456" ]} [] [] [])
              (otp_request (Str "+911234567891") (Str "123456"))
              eq_refl eq_refl) as [H _].
  apply (H "123456"); [reflexivity | discriminate | reflexivity].
Defined.

Lemma run_timers_purges (t due : Z) key s :
  (due, key) ∈ timers s → (due ≤ t)%Z → otpStore (run_timers t s) !! key = None.
Proof.
  intros Hin Hle. unfold run_timers. cbn.
  apply foldl_delete_in.
  apply list_elem_of_fmap. exists (due, key). split; [reflexivity |].
  apply list_elem_of_In, filter_In. split.
  - by apply list_elem_of_In.
  - cbn. by apply Z.leb_le.
Qed.

(** The code lives for the whole five minutes when no earlier timer for the
    same number is still pending. *)
Lemma run_timers_keeps (t : Z) key s :
  (∀ due, (due, key) ∈ timers s → (t < due)%Z) →
  otpStore (run_timers t s) !! key = otpStore s !! key.
Proof.
  intros H. unfold run_timers. cbn. apply foldl_delete_notin.
  intros Hin. apply list_elem_of_fmap in Hin as ([due k] & -> & Hin).
  apply list_elem_of_In, filter_In in Hin as [Hin Hle]. cbn in *.
  apply Z.leb_le in Hle. apply list_elem_of_In, H in Hin. lia.
Qed.

Lemma prefix_plus_truthy p : String.prefix "+" p = true → truthy (Str p) = true.
Proof. destruct p; [discriminate | reflexivity]. Qed.

(** What holds of C4 for every request.  If the delivery
    call fails, the request fails with status 500 (DeliveryError) and the
    state is unchanged: no code is stored.  If delivery succeeds, the
    generated code is stored under the phone number, a timer is set for five
    minutes later, and once that time has come the entry is purged, whether
    it was used or not.  Until then it stays stored, provided no timer set
    by an earlier request for the same number is still pending. *)
Theorem send_otp_atomic w s req p :
  field (req_body req) "phoneNumber" = Str p →
  String.prefix "+" p = true →
  let otp := generate_otp w in
  let delivery := twilio_create w ("Your OTP code is: " ++ pretty otp) (Str p) in
  (∀ e, delivery = Throw e →
     ∃ r, send_otp w req s = (Normal r, s) ∧ status r = 500
          ∧ fails_with DeliveryError r = true)
  ∧ (delivery = Normal tt →
     ∃ r s', send_otp w req s = (Normal r, s') ∧ status r = 200
       ∧ otpStore s' = <[p := pretty otp]> (otpStore s)
       ∧ timers s' = (timers s ++ [(Date_now w 0 + 300000, p)])%list
       ∧ users s' = users s ∧ tickets s' = tickets s
       ∧ (∀ t, (Date_now w 0 + 300000 ≤ t)%Z → otpStore (run_timers t s') !! p = None)
       ∧ (∀ t, (t < Date_now w 0 + 300000)%Z →
            (∀ due, (due, p) ∈ timers s → (t < due)%Z) →
            otpStore (run_timers t s') !! p = Some (pretty otp))).
Proof.
  intros Hf Hp otp delivery.
  pose proof (prefix_plus_truthy _ Hp) as Ht.
  split.
  - intros e He. unfold send_otp, bind, try_catch, lift, send, ret.
    rewrite Hf, Ht. cbn. rewrite Hp. cbn.
    fold otp. fold delivery. rewrite He.
    eexists; repeat split; reflexivity.
  - intros Hd. unfold send_otp, bind, try_catch, lift, send, ret, store_otp.
    rewrite Hf, Ht. cbn. rewrite Hp. cbn.
    fold otp. fold delivery. rewrite Hd.
    eexists; eexists. split; [reflexivity |].
    repeat split; try reflexivity.
    + intros t Hle. eapply run_timers_purges; [| exact Hle].
      cbn. apply elem_of_app. right. apply list_elem_of_singleton. reflexivity.
    + intros t Hlt Hfresh.
      etransitivity;
        [apply (run_timers_keeps t p
                  (mkState (<[p := pretty otp]> (otpStore s))
                           (timers s ++ [(Date_now w 0 + 5 * 60 * 1000, p)])%list
                           (users s) (tickets s))) |].
      * cbn. intros due Hin. apply elem_of_app in Hin as [Hin | Hin].
        -- by apply Hfresh.
        -- apply list_elem_of_singleton in Hin. injection Hin as ->. exact Hlt.
      * cbn. apply lookup_insert_eq.
Qed.

Lemma send_otp_atomic_witness :
  (∃ r, send_otp twilio_down (phone_request (Str "+911234567891")) empty_state
        = (Normal r, empty_state) ∧ status r = 500 ∧ fails_with DeliveryError r = true)
  ∧ (∃ r s', send_otp sample_world (phone_request (Str "+911234567891")) empty_state
             = (Normal r, s') ∧ status r = 200
       ∧ otpStore s' = {[ "+911234567891" := "550000" ]}
       ∧ otpStore (run_timers 1735689900000 s') !! "+911234567891" = None).
Proof.
  split.
  - destruct (send_otp_atomic twilio_down empty_state
                (phone_request (Str "+911234567891")) "+911234567891" eq_refl eq_refl)
      as [H _].
    apply (H (mkError "RestException" "Authenticate")). reflexivity.
  - destruct (send_otp_atomic sample_world empty_state
                (phone_request (Str "+911234567891")) "+911234567891" eq_refl eq_refl)
      as [_ H].
    destruct (H eq_refl) as (r & s' & E & Hs & Ho & _ & _ & _ & Hpurge & _).
    exists r, s'. repeat split; try assumption.
    apply Hpurge. cbn. lia.
Defined.

(** C4: the five-minute lifetime fails on a resend.  The timer of a request
    is never cancelled, so when a second code is sent for the same number
    four minutes after the first, both answered 200, the timer of the first
    request deletes the second code one minute after it was stored, four
    minutes before its own timer is due, and a /verify-otp with that code is
    then answered 400. *)
Theorem send_otp_resend_purged_early :
  ∃ r1 s1 r2 s2,
    send_otp sample_world (phone_request (Str "+911234567891")) empty_state = (Normal r1, s1)
    ∧ status r1 = 200%Z
    ∧ send_otp four_minutes_later (phone_request (Str "+911234567891")) s1 = (Normal r2, s2)
    ∧ status r2 = 200%Z
    ∧ otpStore s2 !! "+911234567891" = Some "325000"
    ∧ timers s2 = [(1735689900000%Z, "+911234567891"); (1735690140000%Z, "+911234567891")]
    ∧ otpStore (run_timers 1735689900000 s2) !! "+911234567891" = None
    ∧ verify_otp four_minutes_later (otp_request (Str "+911234567891") (Str "325000"))
        (run_timers 1735689900000 s2)
      = (Normal (response 400 false "OTP expired or not requested."),
         run_timers 1735689900000 s2).
Proof.
  do 4 eexists. split; [by vm_compute |]. split; [reflexivity |].
  split; [by vm_compute |]. split; [reflexivity |].
  split; [by vm_compute |]. split; [by vm_compute |].
  split; by vm_compute.
Qed.


(** ** Queries *)

Lemma find_first {A} (f : A → bool) (l1 : list A) x l2 :
  (∀ y, y ∈ l1 → f y = false) → f x = true →
  List.find f (l1 ++ x :: l2) = Some x.
Proof.
  induction l1 as [|a l1 IH]; intros Hn Hx; cbn.
  - by rewrite Hx.
  - rewrite (Hn a) by apply list_elem_of_here.
    apply IH; [| assumption]. intros y Hy. apply Hn. by apply list_elem_of_further.
Qed.

Lemma find_nothing {A} (f : A → bool) (l : list A) :
  (∀ y, y ∈ l → f y = false) → List.find f l = None.
Proof.
  induction l as [|a l IH]; intros Hn; cbn; [reflexivity |].
  rewrite (Hn a) by apply list_elem_of_here.
  apply IH. intros y Hy. apply Hn. by apply list_elem_of_further.
Qed.

Lemma find_something {A} (f : A → bool) (l : list A) x :
  x ∈ l → f x = true → ∃ y, List.find f l = Some y.
Proof.
  intros Hin Hx. destruct (List.find f l) as [y|] eqn:E; [by exists y |].
  apply list_elem_of_In in Hin.
  pose proof (find_none f l E x Hin). congruence.
Qed.

Lemma matches_email (e : string) (d : Doc) :
  matches [("email", Str e)] d = bool_decide (d !! "email" = Some (Str e)).
Proof. unfold matches. cbn. apply andb_true_r. Qed.

Lemma findOne_email w k e s :
  db_ok w k = true →
  findOne w k Users userSchema [("email", Str e)] s
  = (Normal ((λ d, mkDocument d true false)
               <$> List.find (matches [("email", Str e)]) (users s)), s).
Proof. intros Hdb. unfold findOne. cbn. rewrite Hdb. reflexivity. Qed.

(** ** Documents *)

Lemma construct_notin w now sch o k :
  k ∉ pname <$> sch → (construct w now sch o).1 !! k = None.
Proof.
  induction sch as [|p r IH]; intros Hk; cbn; [apply lookup_empty |].
  apply not_elem_of_cons in Hk as [Hne Hr].
  destruct (construct w now r o) as [d ok]. cbn in IH.
  destruct (path_value w now p o) as [[v|] okp]; cbn.
  - rewrite lookup_insert_ne by congruence. by apply IH.
  - by apply IH.
Qed.

Lemma construct_lookup w now sch o p :
  NoDup (pname <$> sch) → p ∈ sch →
  (construct w now sch o).1 !! pname p = (path_value w now p o).1.
Proof.
  induction sch as [|q r IH]; intros Hnd Hin; [inversion Hin |].
  cbn in Hnd. apply NoDup_cons in Hnd as [Hq Hnd].
  pose proof (construct_notin w now r o (pname q) Hq) as Hnone.
  cbn. destruct (construct w now r o) as [d ok]. cbn in IH, Hnone.
  apply elem_of_cons in Hin as [-> | Hin].
  - destruct (path_value w now q o) as [[v|] okp]; cbn.
    + apply lookup_insert_eq.
    + assumption.
  - assert (pname q ≠ pname p).
    { intros E. apply Hq. rewrite E. by apply list_elem_of_fmap_2. }
    destruct (path_value w now q o) as [[v|] okp]; cbn.
    + rewrite lookup_insert_ne by assumption. by apply IH.
    + by apply IH.
Qed.

Lemma Model_lookup w now sch o k :
  k ≠ "_id" → doc (Model w now sch o) !! k = (construct w now sch o).1 !! k.
Proof.
  intros Hk. unfold Model. destruct (construct w now sch o) as [d ok]. cbn.
  by rewrite lookup_insert_ne.
Qed.

Lemma get_Some (d : Doc) k v : d !! k = Some v → get d k = v.
Proof. unfold get. by intros ->. Qed.

Lemma get_None (d : Doc) k : d !! k = None → get d k = Undefined.
Proof. unfold get. by intros ->. Qed.

Lemma Model_isNew w now sch o : isNew (Model w now sch o) = true.
Proof. unfold Model. by destruct (construct w now sch o). Qed.

Lemma userSchema_NoDup : NoDup (pname <$> userSchema).
Proof. apply (bool_decide_unpack _). by vm_compute. Qed.

Lemma ticketSchema_NoDup : NoDup (pname <$> ticketSchema).
Proof. apply (bool_decide_unpack _). by vm_compute. Qed.

(** A successful [save] of a new document appends it to its collection. *)
Lemma save_new w k c d s s' :
  save w k c d s = (Normal tt, s') → isNew d = true →
  s' = set_collection c (collection c s ++ [<["__v" := Num 0]> (doc d)]) s.
Proof.
  unfold save. intros H Hnew. rewrite Hnew in H.
  destruct (cast_ok d); cbn in H; [| discriminate].
  destruct (db_ok w k); cbn in H; [| discriminate].
  by injection H as <-.
Qed.

(** ** Registration *)

(** A registration answered with 201 has stored a user with that email. *)
Lemma register_201_stores w req s r s' e :
  field (req_body req) "email" = Str e →
  register w req s = (Normal r, s') → status r = 201 →
  ∃ u, u ∈ users s' ∧ u !! "email" = Some (Str e).
Proof.
  intros He Hreg Hst. unfold register, try_catch, bind in Hreg.
  rewrite He in Hreg.
  destruct (truthy (field (req_body req) "name")) eqn:Hn; cbn -[truthy] in Hreg;
    [| injection Hreg as <- <-; discriminate].
  destruct (truthy (Str e)) eqn:Hte; cbn -[truthy] in Hreg;
    [| injection Hreg as <- <-; discriminate].
  destruct (truthy (field (req_body req) "password")) eqn:Hpw; cbn -[truthy] in Hreg;
    [| injection Hreg as <- <-; discriminate].
  destruct (db_ok w 0); cbn -[truthy Model save send payload] in Hreg;
    [| injection Hreg as <- <-; discriminate].
  destruct (List.find _ (users s)) as [x|]; cbn -[truthy Model save send payload] in Hreg;
    [injection Hreg as <- <-; discriminate |].
  destruct (bcrypt_hash w _) as [h|err]; cbn -[truthy Model save send payload] in Hreg;
    [| injection Hreg as <- <-; discriminate].
  destruct (save _ _ _ _ s) as [[[]|err] s1] eqn:Hsave;
    cbn -[truthy Model save send payload] in Hreg;
    [| injection Hreg as <- <-; discriminate].
  injection Hreg as _ <-. clear Hst.
  apply save_new in Hsave as ->; [| apply Model_isNew].
  exists (<["__v" := Num 0]>
            (doc (Model w (Date_now w 0) userSchema
                    [("name", field (req_body req) "name"); ("email", Str e);
                     ("password", Str h)]))).
  split.
  - cbn. apply elem_of_app. right. by apply list_elem_of_singleton.
  - rewrite lookup_insert_ne by discriminate.
    rewrite Model_lookup by discriminate.
    rewrite (construct_lookup _ _ _ _ (mkPath "email" TString NoDefault)).
    + reflexivity.
    + apply userSchema_NoDup.
    + apply list_elem_of_In. cbn. tauto.
Qed.

(** C6: a /register call whose email is already stored fails with status 400
    (ConflictError) and leaves the state, hence the user store, unchanged.
    In particular this is so in the state left by a registration with the
    same email that was answered with 201. *)
Theorem register_existing_email w s req e :
  truthy (field (req_body req) "name") = true →
  field (req_body req) "email" = Str e → e ≠ "" →
  truthy (field (req_body req) "password") = true →
  db_ok w 0 = true →
  let conflict :=
    mkResponse 400 (JObj [("success", jbool false);
                          ("message", jstr "Email or phone number already registered.")]) in
  fails_with ConflictError conflict = true
  ∧ (∀ u, u ∈ users s → u !! "email" = Some (Str e) →
       register w req s = (Normal conflict, s))
  ∧ (∀ w0 req0 s0 r0,
       field (req_body req0) "email" = Str e →
       register w0 req0 s0 = (Normal r0, s) → status r0 = 201 →
       register w req s = (Normal conflict, s)).
Proof.
  intros Hn He Hne Hp Hdb conflict.
  assert (Hex : ∀ u, u ∈ users s → u !! "email" = Some (Str e) →
                 register w req s = (Normal conflict, s)).
  { intros u Hin Hu.
    destruct (find_something (matches [("email", Str e)]) (users s) u Hin) as [y Hy].
    { rewrite matches_email. by apply bool_decide_eq_true_2. }
    assert (Hte : truthy (Str e) = true) by (cbn; by rewrite String_eqb_empty).
    unfold register, try_catch, bind.
    rewrite He, Hn, Hp, Hte. cbn -[findOne].
    rewrite findOne_email by assumption. rewrite Hy. reflexivity. }
  split; [reflexivity |]. split; [exact Hex |].
  intros w0 req0 s0 r0 He0 Hreg Hst.
  destruct (register_201_stores _ _ _ _ _ _ He0 Hreg Hst) as (u & Hin & Hu).
  by apply (Hex u).
Qed.

Lemma register_existing_email_witness :
  ∃ r1, register sample_world (register_request (Str "A") (Str "a@x.com") (Str "secret"))
          empty_state
        = (Normal r1, mkState ∅ [] [alice] []) ∧ status r1 = 201
  ∧ register sample_world (register_request (Str "B") (Str "a@x.com") (Str "other"))
      (mkState ∅ [] [alice] [])
    = (Normal (mkResponse 400
                 (JObj [("success", jbool false);
                        ("message", jstr "Email or phone number already registered.")])),
       mkState ∅ [] [alice] []).
Proof.
  eexists. split; [by vm_compute |]. split; [reflexivity |].
  destruct (register_existing_email sample_world (mkState ∅ [] [alice] [])
              (register_request (Str "B") (Str "a@x.com") (Str "other")) "a@x.com"
              eq_refl eq_refl ltac:(discriminate) eq_refl eq_refl) as (_ & _ & H).
  eapply (H sample_world (register_request (Str "A") (Str "a@x.com") (Str "secret"))
            empty_state).
  - reflexivity.
  - by vm_compute.
  - reflexivity.
Defined.

(** ** Login *)

(** What holds of C7 when bcrypt answers.  A login with an email that no
    stored user has and a login with a stored email but a password that
    bcrypt rejects receive the same response: status 401 (AuthError) with
    the message "Invalid credentials.", and neither changes the state. *)
Theorem login_enumeration_resistant w1 s1 req1 e1 w2 s2 req2 e2 l1 u l2 :
  let invalid :=
    mkResponse 401 (JObj [("success", jbool false);
                          ("message", jstr "Invalid credentials.")]) in
  (* an unknown email *)
  field (req_body req1) "email" = Str e1 → e1 ≠ "" →
  truthy (field (req_body req1) "password") = true →
  db_ok w1 0 = true →
  (∀ x, x ∈ users s1 → x !! "email" ≠ Some (Str e1)) →
  (* a stored email, the first user that has it being [u], and a wrong password *)
  field (req_body req2) "email" = Str e2 → e2 ≠ "" →
  truthy (field (req_body req2) "password") = true →
  db_ok w2 0 = true →
  users s2 = (l1 ++ u :: l2)%list →
  (∀ x, x ∈ l1 → x !! "email" ≠ Some (Str e2)) →
  u !! "email" = Some (Str e2) →
  bcrypt_compare w2 (field (req_body req2) "password") (get u "password") = Normal false →
  login w1 req1 s1 = (Normal invalid, s1)
  ∧ login w2 req2 s2 = (Normal invalid, s2)
  ∧ fails_with AuthError invalid = true.
Proof.
  intros invalid He1 Hne1 Hp1 Hdb1 Hnone He2 Hne2 Hp2 Hdb2 Hus Hl1 Hu Hcmp.
  split; [| split; [| reflexivity]].
  - unfold login, try_catch, bind.
    rewrite He1, Hp1. cbn -[findOne]. rewrite (String_eqb_empty _ Hne1). cbn -[findOne].
    rewrite findOne_email by assumption.
    rewrite find_nothing; [reflexivity |].
    intros y Hy. rewrite matches_email. apply bool_decide_eq_false_2. by apply Hnone.
  - unfold login, try_catch, bind.
    rewrite He2, Hp2. cbn -[findOne]. rewrite (String_eqb_empty _ Hne2). cbn -[findOne].
    rewrite findOne_email by assumption.
    rewrite Hus, find_first; cycle 1.
    { intros y Hy. rewrite matches_email. apply bool_decide_eq_false_2. by apply Hl1. }
    { rewrite matches_email. by apply bool_decide_eq_true_2. }
    cbn. unfold lift. rewrite Hcmp. reflexivity.
Qed.

Lemma login_enumeration_resistant_witness :
  login sample_world (login_request (Str "nobody@x.com") (Str "secret"))
    (mkState ∅ [] [alice] [])
  = login sample_world (login_request (Str "a@x.com") (Str "guess"))
      (mkState ∅ [] [alice] []).
Proof.
  assert (Hnone : ∀ x : Doc, x ∈ [alice] → x !! "email" ≠ Some (Str "nobody@x.com")).
  { intros x Hx. apply list_elem_of_singleton in Hx as ->. discriminate. }
  assert (Hl1 : ∀ x : Doc, x ∈ [] → x !! "email" ≠ Some (Str "a@x.com")).
  { intros x Hx. inversion Hx. }
  destruct (login_enumeration_resistant
              sample_world (mkState ∅ [] [alice] [])
              (login_request (Str "nobody@x.com") (Str "secret")) "nobody@x.com"
              sample_world (mkState ∅ [] [alice] [])
              (login_request (Str "a@x.com") (Str "guess")) "a@x.com"
              [] alice []
              eq_refl ltac:(discriminate) eq_refl eq_refl Hnone
              eq_refl ltac:(discriminate) eq_refl eq_refl eq_refl Hl1 eq_refl eq_refl)
    as (H1 & H2 & _).
  rewrite H1, H2. reflexivity.
Defined.

(** C7: a wrong password that is not a string tells a stored email from an
    unknown one.  The password 5 passes the check of the fields; for an
    email that no user has the answer is 401 "Invalid credentials.", and for
    a stored email [bcrypt.compare] refuses the number, the handler catches
    the error and the answer is 500 "Login failed. Please try again.". *)
Theorem login_non_string_password_distinguishes :
  login bcrypt_strict (login_request (Str "nobody@x.com") (Num 5)) (mkState ∅ [] [alice] [])
  = (Normal (response 401 false "Invalid credentials."), mkState ∅ [] [alice] [])
  ∧ login bcrypt_strict (login_request (Str "a@x.com") (Num 5)) (mkState ∅ [] [alice] [])
    = (Normal (response 500 false "Login failed. Please try again."),
       mkState ∅ [] [alice] []).
Proof. split; by vm_compute. Qed.

(** ** Tickets *)

Lemma find_first_match (f : Doc → bool) (P : Doc → Prop) l t :
  (∀ x, f x = true ↔ P x) → first_match P l t → List.find f l = Some t.
Proof.
  intros Hf (l1 & l2 & -> & Hl1 & Ht). apply find_first.
  - intros y Hy. destruct (f y) eqn:E; [| reflexivity].
    exfalso. apply (Hl1 y Hy). by apply Hf.
  - by apply Hf.
Qed.

Lemma matches_code_and_owner q h (x : Doc) :
  matches [("qrCode", Str q); ("userId", ObjectId h)] x = true ↔ has_code_and_owner q h x.
Proof.
  unfold matches, has_code_and_owner. cbn.
  rewrite andb_true_r, andb_true_iff, !bool_decide_eq_true. reflexivity.
Qed.

Lemma matches_id h (x : Doc) :
  matches [("_id", ObjectId h)] x = true ↔ has_id h x.
Proof.
  unfold matches, has_id. cbn. rewrite andb_true_r, bool_decide_eq_true. reflexivity.
Qed.

Lemma matches_ticketId id (x : Doc) :
  matches [("ticketId", Str id)] x = true ↔ has_ticketId id x.
Proof.
  unfold matches, has_ticketId. cbn. rewrite andb_true_r, bool_decide_eq_true. reflexivity.
Qed.

Lemma findOne_code_and_owner w q h s :
  findOne w 0 Tickets ticketSchema [("qrCode", Str q); ("userId", ObjectId h)] s
  = if db_ok w 0
    then (Normal ((λ d, mkDocument d true false)
                    <$> List.find (matches [("qrCode", Str q); ("userId", ObjectId h)])
                          (tickets s)), s)
    else (Throw MongoError, s).
Proof. reflexivity. Qed.

Lemma findById_user w h s :
  findById w 1 Users userSchema (ObjectId h) s
  = if db_ok w 1
    then (Normal ((λ d, mkDocument d true false)
                    <$> List.find (matches [("_id", ObjectId h)]) (users s)), s)
    else (Throw MongoError, s).
Proof. reflexivity. Qed.

(** What the handler does once the ticket and its owner's face are found:
    the answer of the matcher alone decides, and the status of the ticket is
    not looked at. *)
Lemma verify_ticket_with_found compare w req h q s t u :
  get (user req) "userId" = ObjectId h →
  field (req_body req) "qrData" = Str q →
  db_ok w 0 = true → db_ok w 1 = true →
  first_match (has_code_and_owner q h) (tickets s) t →
  first_match (has_id h) (users s) u →
  truthy (get u "faceImagePath") = true →
  verify_ticket_with compare w req s
  = match compare w (field (req_body req) "faceImage") (get u "faceImagePath") s with
    | (Normal false, s1) => (Normal (response 403 false "Face verification failed"), s1)
    | (Normal true, s1) =>
        if db_ok w 2
        then (Normal (response 200 true "Ticket verified successfully"), mark_used t s1)
        else (Normal (response 500 false "Server error during ticket verification"), s1)
    | (Throw e, s1) =>
        (Normal (response 500 false "Server error during ticket verification"), s1)
    end.
Proof.
  intros Hu Hq Hdb0 Hdb1 Ht Husr Hface.
  unfold verify_ticket_with, try_catch, bind.
  rewrite Hu, Hq, findOne_code_and_owner, Hdb0.
  rewrite (find_first_match _ _ _ _ (matches_code_and_owner q h) Ht).
  cbn -[findById]. rewrite findById_user, Hdb1.
  rewrite (find_first_match _ _ _ _ (matches_id h) Husr).
  cbn -[save]. rewrite Hface. cbn -[save].
  destruct (compare w _ _ s) as [[[|]|e] s1]; cbn -[save]; try reflexivity.
  unfold save. cbn. destruct (db_ok w 2); reflexivity.
Qed.

Lemma mark_used_keeps_used t s i x :
  tickets s !! i = Some x → x !! "status" = Some (Str "used") →
  ∃ x', tickets (mark_used t s) !! i = Some x' ∧ x' !! "status" = Some (Str "used").
Proof.
  intros Hi Hx. unfold mark_used, replace_doc. cbn.
  revert i Hi. induction (tickets s) as [|a l IH]; intros [|i] Hi; try discriminate.
  - injection Hi as ->. cbn. eexists. split; [reflexivity |].
    destruct (same_id _ x); [apply lookup_insert_eq | assumption].
  - cbn. by apply IH.
Qed.

(** C1 as stated fails: the owner presents a ticket that is already 'used'.
    The face check is run; in server.js it fails and the answer is 403, and
    with a matcher that accepts the face the answer is 200.  Neither is a
    ConflictError. *)
Lemma verify_ticket_used_no_conflict :
  sample_ticket "a11ce" "used" !! "status" = Some (Str "used") ∧
  (∃ r, verify_ticket sample_world (verify_request "token-of-alice")
          (state_with alice_with_face (sample_ticket "a11ce" "used"))
        = (Normal r, state_with alice_with_face (sample_ticket "a11ce" "used"))
        ∧ status r = 403 ∧ fails_with ConflictError r = false) ∧
  (∃ r, authenticateToken sample_world (verify_request "token-of-alice")
          (verify_ticket_with working_compareFaces sample_world)
          (state_with alice_with_face (sample_ticket "a11ce" "used"))
        = (Normal r, state_with alice_with_face (sample_ticket "a11ce" "used"))
        ∧ status r = 200 ∧ fails_with ConflictError r = false).
Proof.
  split; [reflexivity |].
  split; (eexists; split; [by vm_compute |]; split; reflexivity).
Qed.

(** C1 (amended): /verify-ticket has no status check and never answers with a
    ConflictError.  When the owner presents the code of a ticket, whatever
    its status ('used' and 'expired' included), and has a registered face,
    the answer of the face matcher alone decides: on no match the request
    fails with 403 and the state is unchanged; on a match the ticket is
    saved with status 'used' and 200 is returned.  In either case a ticket
    that was 'used' is still 'used' afterwards. *)
Theorem verify_ticket_ignores_status compare w req d h q s t u b :
  authenticated w req d → get d "userId" = ObjectId h →
  field (req_body req) "qrData" = Str q →
  db_ok w 0 = true → db_ok w 1 = true →
  first_match (has_code_and_owner q h) (tickets s) t →
  first_match (has_id h) (users s) u →
  truthy (get u "faceImagePath") = true →
  compare w (field (req_body req) "faceImage") (get u "faceImagePath") s = (Normal b, s) →
  ∃ r s', authenticateToken w req (verify_ticket_with compare w) s = (Normal r, s')
    ∧ fails_with ConflictError r = false
    ∧ (b = false → r = response 403 false "Face verification failed" ∧ s' = s)
    ∧ (b = true → db_ok w 2 = true →
         r = response 200 true "Ticket verified successfully" ∧ s' = mark_used t s)
    ∧ (∀ i x, tickets s !! i = Some x → x !! "status" = Some (Str "used") →
         ∃ x', tickets s' !! i = Some x' ∧ x' !! "status" = Some (Str "used")).
Proof.
  intros Hauth Hd Hq Hdb0 Hdb1 Ht Hu Hface Hcmp.
  rewrite (authenticateToken_pass _ _ _ _ Hauth).
  rewrite (verify_ticket_with_found compare w (with_user req d) h q s t u);
    try assumption.
  cbn [with_user req_body]. rewrite Hcmp.
  destruct b.
  - destruct (db_ok w 2).
    + eexists; eexists. split; [reflexivity |]. split; [reflexivity |].
      split; [discriminate |]. split; [done |].
      intros i x. apply mark_used_keeps_used.
    + eexists; eexists. split; [reflexivity |]. split; [reflexivity |].
      split; [discriminate |]. split; [discriminate |]. eauto.
  - eexists; eexists. split; [reflexivity |]. split; [reflexivity |].
    split; [done |]. split; [discriminate |]. eauto.
Qed.

Lemma first_match_head (P : Doc → Prop) t l : P t → first_match P (t :: l) t.
Proof.
  intros Ht. exists [], l. split; [reflexivity |]. split; [| assumption].
  intros x Hx. inversion Hx.
Qed.

Lemma verify_ticket_ignores_status_witness :
  (* server.js: the matcher answers false, a 'used' ticket stays as it is *)
  verify_ticket sample_world (verify_request "token-of-alice")
    (state_with alice_with_face (sample_ticket "a11ce" "used"))
  = (Normal (response 403 false "Face verification failed"),
     state_with alice_with_face (sample_ticket "a11ce" "used"))
  (* with a matcher that answers true, an 'expired' ticket becomes 'used' *)
  ∧ authenticateToken sample_world (verify_request "token-of-alice")
      (verify_ticket_with working_compareFaces sample_world)
      (state_with alice_with_face (sample_ticket "a11ce" "expired"))
    = (Normal (response 200 true "Ticket verified successfully"),
       state_with alice_with_face (sample_ticket "a11ce" "used")).
Proof.
  split.
  - destruct (verify_ticket_ignores_status compareFaces sample_world
                (verify_request "token-of-alice") {[ "userId" := ObjectId "a11ce" ]}
                "a11ce" "data:image/png;base64,QR"
                (state_with alice_with_face (sample_ticket "a11ce" "used"))
                (sample_ticket "a11ce" "used") alice_with_face false
                (conj eq_refl eq_refl) eq_refl eq_refl eq_refl eq_refl
                (first_match_head (has_code_and_owner "data:image/png;base64,QR" "a11ce")
                   (sample_ticket "a11ce" "used") [] (conj eq_refl eq_refl))
                (first_match_head (has_id "a11ce") alice_with_face [] eq_refl)
                eq_refl eq_refl)
      as (r & s' & E & _ & H & _).
    destruct (H eq_refl) as [-> ->]. exact E.
  - destruct (verify_ticket_ignores_status working_compareFaces sample_world
                (verify_request "token-of-alice") {[ "userId" := ObjectId "a11ce" ]}
                "a11ce" "data:image/png;base64,QR"
                (state_with alice_with_face (sample_ticket "a11ce" "expired"))
                (sample_ticket "a11ce" "expired") alice_with_face true
                (conj eq_refl eq_refl) eq_refl eq_refl eq_refl eq_refl
                (first_match_head (has_code_and_owner "data:image/png;base64,QR" "a11ce")
                   (sample_ticket "a11ce" "expired") [] (conj eq_refl eq_refl))
                (first_match_head (has_id "a11ce") alice_with_face [] eq_refl)
                eq_refl eq_refl)
      as (r & s' & E & _ & _ & H & _).
    destruct (H eq_refl eq_refl) as [-> ->]. rewrite E. by vm_compute.
Defined.

(** What holds of C8 for a token that carries a user id: /verify-ticket
    looks the ticket up by the scanned code and the
    identity of the authenticated user together.  When no ticket carries the
    code, and when tickets carry it but belong to other users, the response
    is the same 404 (NotFoundError) and the state is unchanged; when a
    ticket with that code and owner exists the response is not 404. *)
Theorem verify_ticket_not_found_uniform w req d h q s1 s2 :
  let not_found := response 404 false "Ticket not found or doesn't belong to user" in
  authenticated w req d → get d "userId" = ObjectId h →
  field (req_body req) "qrData" = Str q →
  db_ok w 0 = true →
  (* no ticket of [s1] carries the code *)
  (∀ t, t ∈ tickets s1 → t !! "qrCode" ≠ Some (Str q)) →
  (* tickets of [s2] carry it, all of them owned by someone else *)
  (∃ t, t ∈ tickets s2 ∧ t !! "qrCode" = Some (Str q)) →
  (∀ t, t ∈ tickets s2 → t !! "qrCode" = Some (Str q) →
        t !! "userId" ≠ Some (ObjectId h)) →
  verify_ticket w req s1 = (Normal not_found, s1)
  ∧ verify_ticket w req s2 = (Normal not_found, s2)
  ∧ fails_with NotFoundError not_found = true
  ∧ (∀ s t, t ∈ tickets s → has_code_and_owner q h t →
       ∃ r s', verify_ticket w req s = (Normal r, s') ∧ status r ≠ 404).
Proof.
  intros not_found Hauth Hd Hq Hdb Hs1 _ Hs2.
  assert (Hmiss : ∀ s, (∀ t, t ∈ tickets s → ¬ has_code_and_owner q h t) →
                   verify_ticket w req s = (Normal not_found, s)).
  { intros s Hno. unfold verify_ticket.
    rewrite (authenticateToken_pass _ _ _ _ Hauth).
    unfold verify_ticket_with, try_catch, bind. cbn [with_user req_body user].
    rewrite Hd, Hq, findOne_code_and_owner, Hdb.
    rewrite find_nothing; [reflexivity |].
    intros y Hy. destruct (matches _ y) eqn:E; [| reflexivity].
    exfalso. apply (Hno y Hy). by apply matches_code_and_owner. }
  split; [| split; [| split; [reflexivity |]]].
  - apply Hmiss. intros t Ht [Hc _]. by apply (Hs1 t).
  - apply Hmiss. intros t Ht [Hc Ho]. by apply (Hs2 t).
  - intros s t Hin Ht.
    destruct (find_something (matches [("qrCode", Str q); ("userId", ObjectId h)])
                (tickets s) t Hin) as [y Hy]; [by apply matches_code_and_owner |].
    unfold verify_ticket.
    rewrite (authenticateToken_pass _ _ _ _ Hauth).
    unfold verify_ticket_with, try_catch, bind. cbn [with_user req_body user].
    rewrite Hd, Hq, findOne_code_and_owner, Hdb, Hy.
    cbn -[findById]. rewrite findById_user.
    destruct (db_ok w 1); [| eexists; eexists; split; [reflexivity | discriminate]].
    destruct (List.find _ (users s)) as [u|]; cbn;
      [| eexists; eexists; split; [reflexivity | discriminate]].
    destruct (truthy (get u "faceImagePath")); cbn;
      eexists; eexists; (split; [reflexivity | discriminate]).
Qed.

Lemma verify_ticket_not_found_uniform_witness :
  verify_ticket sample_world (verify_request "token-of-alice")
    (mkState ∅ [] [alice_with_face] [])
  = (Normal (response 404 false "Ticket not found or doesn't belong to user"),
     mkState ∅ [] [alice_with_face] [])
  ∧ verify_ticket sample_world (verify_request "token-of-alice")
      (state_with alice_with_face (sample_ticket "b0b" "active"))
    = (Normal (response 404 false "Ticket not found or doesn't belong to user"),
       state_with alice_with_face (sample_ticket "b0b" "active")).
Proof.
  assert (H1 : ∀ t : Doc, t ∈ [] → t !! "qrCode" ≠ Some (Str "data:image/png;base64,QR")).
  { intros t Ht. inversion Ht. }
  assert (H2 : ∃ t : Doc, t ∈ [sample_ticket "b0b" "active"]
                          ∧ t !! "qrCode" = Some (Str "data:image/png;base64,QR")).
  { eexists. split; [apply list_elem_of_here | reflexivity]. }
  assert (H3 : ∀ t : Doc, t ∈ [sample_ticket "b0b" "active"] →
                 t !! "qrCode" = Some (Str "data:image/png;base64,QR") →
                 t !! "userId" ≠ Some (ObjectId "a11ce")).
  { intros t Ht _. apply list_elem_of_singleton in Ht as ->. discriminate. }
  destruct (verify_ticket_not_found_uniform sample_world
              (verify_request "token-of-alice") {[ "userId" := ObjectId "a11ce" ]}
              "a11ce" "data:image/png;base64,QR"
              (mkState ∅ [] [alice_with_face] [])
              (state_with alice_with_face (sample_ticket "b0b" "active"))
              (conj eq_refl eq_refl) eq_refl eq_refl eq_refl H1 H2 H3)
    as (E1 & E2 & _).
  split; assumption.
Defined.

(** C8: with the token of /verify-otp a non-owner learns that a ticket
    exists.  That token carries a phone number and no user id, and
    authenticateToken accepts it.  A ticket created under such a token is
    stored without an owner; the holder of the token of another number who
    presents its code is answered 400 "User face not registered", where a
    code that no ticket carries is answered 404. *)
Theorem verify_ticket_phone_token_leaks_existence :
  verify_otp otp_tokens (otp_request (Str "+922222222222") (Str "550000"))
    (mkState {[ "+922222222222" := "550000" ]} [] [] [])
  = (Normal (mkResponse 200
       (JObj [("success", jbool true);
              ("message", jstr "OTP verified successfully!");
              ("token", jstr "otp.+922222222222")])), empty_state)
  ∧ ∃ r s1,
      create_ticket otp_tokens (create_request "otp.+911111111111") empty_state
      = (Normal r, s1)
      ∧ status r = 201%Z
      ∧ (∃ t, tickets s1 = [t] ∧ t !! "userId" = None
              ∧ t !! "qrCode" = Some (Str "data:image/png;base64,QR"))
      ∧ verify_ticket otp_tokens (verify_request "otp.+922222222222") s1
        = (Normal (response 400 false "User face not registered"), s1)
      ∧ verify_ticket otp_tokens (verify_request "otp.+922222222222") empty_state
        = (Normal (response 404 false "Ticket not found or doesn't belong to user"),
           empty_state).
Proof.
  split; [by vm_compute |]. do 2 eexists.
  split; [by vm_compute |]. split; [reflexivity |].
  split; [eexists; split; [reflexivity | split; by vm_compute] |].
  split; by vm_compute.
Qed.

(** C10: GET /ticket/:id makes no ownership check.  The lookup uses the
    ticket identifier alone: two authenticated users receive the same
    response for the same identifier, and whoever asks receives the whole
    document of the first ticket with that identifier, its code and status
    included, whoever owns it. *)
Theorem get_ticket_no_ownership_check w s req1 d1 req2 d2 :
  authenticated w req1 d1 → authenticated w req2 d2 →
  params_id req1 = params_id req2 →
  get_ticket w req1 s = get_ticket w req2 s
  ∧ (∀ t, db_ok w 0 = true →
       first_match (has_ticketId (params_id req1)) (tickets s) t →
       get_ticket w req1 s
       = (Normal (mkResponse 200 (JObj [("success", jbool true); ("ticket", JDoc t)])), s)).
Proof.
  intros H1 H2 Hid. unfold get_ticket.
  rewrite (authenticateToken_pass _ _ _ _ H1), (authenticateToken_pass _ _ _ _ H2).
  unfold get_ticket_handler. cbn [with_user params_id].
  split; [by rewrite Hid |].
  intros t Hdb Ht.
  unfold try_catch, bind, findOne. cbn. rewrite Hdb.
  rewrite (find_first_match _ _ _ _ (matches_ticketId (params_id req1)) Ht).
  reflexivity.
Qed.

Lemma get_ticket_no_ownership_check_witness :
  get_ticket sample_world (ticket_request "token-of-bob" "TKT-M5D4RUO0")
    (state_with alice (sample_ticket "a11ce" "active"))
  = (Normal (mkResponse 200 (JObj [("success", jbool true);
                                   ("ticket", JDoc (sample_ticket "a11ce" "active"))])),
     state_with alice (sample_ticket "a11ce" "active"))
  ∧ get_ticket sample_world (ticket_request "token-of-bob" "TKT-M5D4RUO0")
      (state_with alice (sample_ticket "a11ce" "active"))
    = get_ticket sample_world (ticket_request "token-of-alice" "TKT-M5D4RUO0")
        (state_with alice (sample_ticket "a11ce" "active")).
Proof.
  destruct (get_ticket_no_ownership_check sample_world
              (state_with alice (sample_ticket "a11ce" "active"))
              (ticket_request "token-of-bob" "TKT-M5D4RUO0") {[ "userId" := ObjectId "b0b" ]}
              (ticket_request "token-of-alice" "TKT-M5D4RUO0")
              {[ "userId" := ObjectId "a11ce" ]}
              (conj eq_refl eq_refl) (conj eq_refl eq_refl) eq_refl) as [E H].
  split; [| exact E].
  apply H; [reflexivity |].
  apply (first_match_head (has_ticketId "TKT-M5D4RUO0") (sample_ticket "a11ce" "active") []).
  reflexivity.
Defined.

(** ** Ticket creation *)

Lemma defined_truthy k v : truthy v = true → defined (k, JVal v) = true.
Proof. by destruct v. Qed.

(** Every /create-ticket call with the four fields present either fails with
    500 and changes nothing, or answers 201 and appends one ticket: its
    status is 'active' and its [createdAt] is the clock reading, but it has
    no [expiresAt] path, and the response has no [expiresAt] either. *)
Lemma create_ticket_outcome w req d s :
  let source := field (req_body req) "source" in
  let destination := field (req_body req) "destination" in
  let phoneNumber := field (req_body req) "phoneNumber" in
  let bookingDate := field (req_body req) "bookingDate" in
  authenticated w req d →
  truthy source = true → truthy destination = true →
  truthy phoneNumber = true → truthy bookingDate = true →
  ∃ r s', create_ticket w req s = (Normal r, s') ∧
    ((r = response 500 false "Failed to create ticket." ∧ s' = s)
     ∨ (∃ qrCode t,
          s' = set_collection Tickets (tickets s ++ [t]) s
          ∧ t !! "status" = Some (Str "active")
          ∧ t !! "createdAt" = Some (DateV (Some (Date_now w 2)))
          ∧ t !! "expiresAt" = None
          ∧ r = mkResponse 201
                  (JObj [("success", jbool true);
                         ("message", jstr "Ticket created successfully");
                         ("ticket",
                          JObj [("ticketId",
                                 jstr ("TKT-" ++ toUpperCase (toString36 (Date_now w 0))));
                                ("source", JVal source);
                                ("destination", JVal destination);
                                ("phoneNumber", JVal phoneNumber);
                                ("bookingDate", JVal bookingDate);
                                ("qrCode", jstr qrCode);
                                ("createdAt", JVal (DateV (Some (Date_now w 2))))])]))).
Proof.
  intros source destination phoneNumber bookingDate Hauth Hs Hd Hp Hb.
  unfold create_ticket. rewrite (authenticateToken_pass _ _ _ _ Hauth).
  unfold create_ticket_handler, try_catch, bind, lift.
  cbn [with_user req_body user].
  fold source destination phoneNumber bookingDate.
  rewrite Hs, Hd, Hp, Hb. cbn [negb orb].
  destruct (qrcode_toDataURL w _) as [qrCode|e];
    [| eexists; eexists; split; [reflexivity | by left]].
  match goal with |- context [save w 0 Tickets ?m s] => set (ticket := m) end.
  assert (Hst : doc ticket !! "status" = Some (Str "active")).
  { unfold ticket. rewrite Model_lookup by discriminate.
    rewrite (construct_lookup _ _ _ _ (mkPath "status" TString (DefaultValue (Str "active"))));
      [reflexivity | apply ticketSchema_NoDup | apply list_elem_of_In; cbn; tauto]. }
  assert (Hca : doc ticket !! "createdAt" = Some (DateV (Some (Date_now w 2)))).
  { unfold ticket. rewrite Model_lookup by discriminate.
    rewrite (construct_lookup _ _ _ _ (mkPath "createdAt" TDate DefaultNow));
      [reflexivity | apply ticketSchema_NoDup | apply list_elem_of_In; cbn; tauto]. }
  assert (Hex : doc ticket !! "expiresAt" = None).
  { unfold ticket. rewrite Model_lookup by discriminate.
    apply construct_notin. intros H. apply list_elem_of_In in H. cbn in H.
    intuition discriminate. }
  rewrite (get_Some _ _ _ Hca), (get_None _ _ Hex).
  destruct (save w 0 Tickets ticket s) as [[[]|e] s1] eqn:Hsave.
  - apply save_new in Hsave as ->; [| apply Model_isNew].
    eexists; eexists. split; [reflexivity |]. right.
    exists qrCode, (<["__v" := Num 0]> (doc ticket)).
    split; [reflexivity |].
    rewrite !lookup_insert_ne by discriminate.
    repeat (split; [assumption |]).
    unfold send, ret, jbool, jstr.
    cbn -[defined toUpperCase toString36 String.append].
    rewrite !defined_truthy by (assumption || reflexivity).
    reflexivity.
  - eexists; eexists. split; [| left; split; reflexivity].
    unfold save in Hsave.
    destruct (negb (cast_ok ticket)); [by injection Hsave as _ <- |].
    destruct (negb (db_ok w 0)); [by injection Hsave as _ <- |].
    destruct (isNew ticket); discriminate.
Qed.

(** C2: a /create-ticket call with the four fields present, in a world in
    which every collaborator answers, is answered with 201 and persists an
    'active' ticket created at the clock reading; but the ticket built by
    [new Ticket({..., expiresAt})] has no [expiresAt] path (the schema has
    none), so that no expiry timestamp is persisted and the [ticket] object
    of the response has no [expiresAt]. *)
Theorem create_ticket_drops_expiresAt :
  ∃ r t,
    create_ticket sample_world (create_request "token-of-alice") (mkState ∅ [] [alice] [])
    = (Normal r, mkState ∅ [] [alice] [t])
    ∧ status r = 201
    ∧ t !! "status" = Some (Str "active")
    ∧ t !! "createdAt" = Some (DateV (Some 1735689600002))
    ∧ t !! "expiresAt" = None
    ∧ (∃ fields, body r = JObj [("success", jbool true);
                                ("message", jstr "Ticket created successfully");
                                ("ticket", JObj fields)]
                 ∧ jfield fields "createdAt" = Some (JVal (DateV (Some 1735689600002)))
                 ∧ jfield fields "expiresAt" = None).
Proof.
  eexists; eexists. split; [by vm_compute |].
  split; [reflexivity |]. split; [by vm_compute |]. split; [by vm_compute |].
  split; [by vm_compute |].
  eexists. split; [reflexivity |]. split; reflexivity.
Qed.

(** * Further properties of server.js *)

(** ** authenticateToken *)

(** X1: a request without a token is answered 401 and a request whose token
    does not verify is answered 400; in both cases the route handler is not
    run and the state is unchanged. *)
Theorem authenticateToken_rejects w req next s :
  (truthy (bearer req) = false →
     authenticateToken w req next s
     = (Normal (response 401 false "Access denied. No token provided."), s))
  ∧ (truthy (bearer req) = true → jwt_verify w (ToString w (bearer req)) = None →
     authenticateToken w req next s = (Normal (response 400 false "Invalid token."), s)).
Proof.
  unfold authenticateToken. split.
  - intros ->. reflexivity.
  - intros -> ->. reflexivity.
Qed.

Lemma authenticateToken_rejects_witness :
  create_ticket sample_world (mkRequest Undefined [] "" ∅) empty_state
  = (Normal (response 401 false "Access denied. No token provided."), empty_state)
  ∧ get_ticket sample_world (ticket_request "forged" "TKT-M5D4RUO0") empty_state
    = (Normal (response 400 false "Invalid token."), empty_state).
Proof.
  split.
  - apply (authenticateToken_rejects sample_world (mkRequest Undefined [] "" ∅)).
    reflexivity.
  - apply (authenticateToken_rejects sample_world (ticket_request "forged" "TKT-M5D4RUO0"));
      reflexivity.
Defined.

(** ** Handlers that only read *)

Lemma compareFaces_unbound w live stored s :
  compareFaces w live stored s = (Normal false, s).
Proof.
  unfold compareFaces, compareFaces_in, try_catch, bind, resolve.
  rewrite canvas_unbound. reflexivity.
Qed.

Lemma findOne_state w k c sch f s x s' : findOne w k c sch f s = (x, s') → s' = s.
Proof.
  unfold findOne. destruct (cast_filter w sch f); [destruct (db_ok w k) |];
    intros H; by injection H as _ <-.
Qed.

(** X2: /login always answers and never changes the state, whatever the
    request and whatever the collaborators do. *)
Theorem login_read_only w req s : ∃ r, login w req s = (Normal r, s).
Proof.
  unfold login, try_catch, bind, lift.
  destruct (negb (truthy (field (req_body req) "email"))
            || negb (truthy (field (req_body req) "password")));
    [eexists; reflexivity |].
  destruct (findOne w 0 Users userSchema _ s) as [[[u|]|e] s1] eqn:Hf;
    apply findOne_state in Hf as ->; try (eexists; reflexivity).
  destruct (bcrypt_compare w _ _) as [[|]|e]; eexists; reflexivity.
Qed.

(** X3: GET /ticket/:id always answers and never changes the state. *)
Theorem get_ticket_read_only w req s : ∃ r, get_ticket w req s = (Normal r, s).
Proof.
  unfold get_ticket, authenticateToken.
  destruct (negb (truthy (bearer req))); [eexists; reflexivity |].
  destruct (jwt_verify w _); [| eexists; reflexivity].
  unfold get_ticket_handler, try_catch, bind.
  destruct (findOne w 0 Tickets ticketSchema _ s) as [[[u|]|e] s1] eqn:Hf;
    apply findOne_state in Hf as ->; eexists; reflexivity.
Qed.

(** X4: in server.js /verify-ticket never succeeds.  Whatever the request,
    the stored tickets and the collaborators, it answers with a status other
    than 200 and leaves the state, hence every ticket, as it was: the face
    comparison it awaits answers false on every input. *)
Theorem verify_ticket_never_succeeds w req s :
  ∃ r, verify_ticket w req s = (Normal r, s) ∧ status r ≠ 200.
Proof.
  unfold verify_ticket, authenticateToken.
  destruct (negb (truthy (bearer req))); [eexists; split; [reflexivity | discriminate] |].
  destruct (jwt_verify w _) as [d|]; [| eexists; split; [reflexivity | discriminate]].
  unfold verify_ticket_with, try_catch, bind.
  destruct (findOne w 0 Tickets ticketSchema _ s) as [[[t|]|e] s1] eqn:Hf;
    apply findOne_state in Hf as ->;
    try (eexists; split; [reflexivity | discriminate]).
  unfold findById.
  destruct (findOne w 1 Users userSchema _ s) as [[u|e] s1] eqn:Hu;
    apply findOne_state in Hu as ->;
    [| eexists; split; [reflexivity | discriminate]].
  destruct (negb (truthy _)); [eexists; split; [reflexivity | discriminate] |].
  rewrite compareFaces_unbound. cbn.
  eexists; split; [reflexivity | discriminate].
Qed.

(** ** One-time codes, continued *)

Lemma pretty_N_go_nonempty x s : s ≠ "" → pretty_N_go x s ≠ "".
Proof.
  revert s. induction (N.lt_wf_0 x) as [x _ IH]; intros s Hs.
  assert (x = 0 ∨ 0 < x)%N as [-> | Hx] by lia.
  - by rewrite pretty_N_go_0.
  - rewrite pretty_N_go_step by done. apply IH; [by apply N.div_lt | discriminate].
Qed.

Lemma pretty_Z_nonempty (n : Z) : pretty n ≠ "".
Proof.
  destruct n as [|x|x]; [discriminate | | discriminate].
  unfold pretty, pretty_Z, pretty, pretty_positive, pretty, pretty_N.
  case_decide; [discriminate |].
  rewrite pretty_N_go_step by lia. apply pretty_N_go_nonempty. discriminate.
Qed.

Lemma truthy_pretty (n : Z) : truthy (Str (pretty n)) = true.
Proof. cbn. by rewrite (String_eqb_empty _ (pretty_Z_nonempty n)). Qed.

(** X5: /send-otp answers 400 and changes nothing when the phone number is
    missing, empty, or a string that does not start with '+'. *)
Theorem send_otp_rejects_invalid_number w req s :
  let phoneNumber := field (req_body req) "phoneNumber" in
  truthy phoneNumber = false ∨ (∃ p, phoneNumber = Str p ∧ String.prefix "+" p = false) →
  send_otp w req s
  = (Normal (response 400 false
       "Valid phone number with country code is required (e.g., +91XXXXXXXXXX)"), s).
Proof.
  intros phoneNumber [Hf | (p & Hp & Hpre)]; unfold send_otp, bind, lift;
    fold phoneNumber.
  - rewrite Hf. reflexivity.
  - rewrite Hp. cbn. destruct (String.eqb p ""); [reflexivity |]. cbn.
    rewrite Hpre. reflexivity.
Qed.

Lemma send_otp_rejects_invalid_number_witness :
  send_otp sample_world (phone_request (Str "911234567891")) empty_state
  = (Normal (response 400 false
       "Valid phone number with country code is required (e.g., +91XXXXXXXXXX)"),
     empty_state).
Proof.
  apply send_otp_rejects_invalid_number. right. by exists "911234567891".
Defined.

(** X6: a phone number that is truthy but not a string (a JSON number or
    [true]) makes /send-otp throw a TypeError outside of any [try]: the
    handler sends no response; the state is unchanged. *)
Theorem send_otp_throws_on_non_string w req s :
  let phoneNumber := field (req_body req) "phoneNumber" in
  truthy phoneNumber = true → (∀ p, phoneNumber ≠ Str p) →
  send_otp w req s = (Throw (TypeError "startsWith is not a function"), s).
Proof.
  intros phoneNumber Ht Hns. unfold send_otp, bind, lift. fold phoneNumber.
  rewrite Ht. cbn.
  destruct phoneNumber; try discriminate; try reflexivity.
  by destruct (Hns s0).
Qed.

Lemma send_otp_throws_on_non_string_witness :
  send_otp sample_world (phone_request (Num 911234567891)) empty_state
  = (Throw (TypeError "startsWith is not a function"), empty_state).
Proof.
  apply send_otp_throws_on_non_string; [reflexivity | discriminate].
Defined.

Lemma verify_otp_toString w phoneNumber (n : Z) s :
  n ≠ 0%Z →
  verify_otp w (otp_request phoneNumber (Num n)) s
  = verify_otp w (otp_request phoneNumber (Str (pretty n))) s.
Proof.
  intros Hn. unfold verify_otp, bind, get_state, lift. cbn -[truthy].
  rewrite truthy_pretty.
  replace (truthy (Num n)) with true by (cbn; by destruct n).
  reflexivity.
Qed.

(** X7: /verify-otp compares the submitted code after [toString()]: a code
    sent as a JSON number and the same code sent as a string receive the
    same response and leave the same state. *)
Theorem verify_otp_number_or_string w phoneNumber (n : Z) s :
  n ≠ 0%Z →
  verify_otp w (otp_request phoneNumber (Num n)) s
  = verify_otp w (otp_request phoneNumber (Str (pretty n))) s.
Proof. apply verify_otp_toString. Qed.

Lemma verify_otp_number_or_string_witness :
  verify_otp sample_world (otp_request (Str "+911234567891") (Num 123456))
    (mkState {[ "+911234567891" := "123456" ]} [] [] [])
  = verify_otp sample_world (otp_request (Str "+911234567891") (Str "123456"))
      (mkState {[ "+911234567891" := "123456" ]} [] [] []).
Proof. apply (verify_otp_number_or_string _ _ 123456). discriminate. Defined.

(** What /verify-otp does when the submitted code is the stored one. *)
Lemma verify_otp_match w s phoneNumber otp code :
  truthy phoneNumber = true → truthy otp = true →
  otpStore s !! ToString w phoneNumber = Some code → code ≠ "" →
  ToString w otp = code →
  verify_otp w (otp_request phoneNumber otp) s
  = (Normal (mkResponse 200
       (JObj [("success", jbool true);
              ("message", jstr "OTP verified successfully!");
              ("token", jstr (jwt_sign w (payload [("phoneNumber", phoneNumber)])))])),
     mkState (delete (ToString w phoneNumber) (otpStore s)) (timers s) (users s) (tickets s)).
Proof.
  intros Hp Ho Hc Hne Heq.
  unfold verify_otp, bind, get_state, send, ret, lift, delete_otp. cbn -[truthy].
  rewrite Hp, Ho. cbn.
  unfold otp_get. rewrite Hc. cbn. rewrite (String_eqb_empty _ Hne). cbn.
  rewrite (toString_truthy _ _ Ho), Heq. cbn.
  unfold strict_eq. rewrite bool_decide_eq_true_2 by reflexivity.
  destruct phoneNumber; try discriminate; reflexivity.
Qed.

(** What a successful /send-otp does to the state. *)
Lemma send_otp_success w req s p :
  field (req_body req) "phoneNumber" = Str p →
  String.prefix "+" p = true →
  twilio_create w ("Your OTP code is: " ++ pretty (generate_otp w)) (Str p) = Normal tt →
  ∃ r, send_otp w req s
       = (Normal r, mkState (<[p := pretty (generate_otp w)]> (otpStore s))
                            (timers s ++ [(Date_now w 0 + 5 * 60 * 1000, p)])%list
                            (users s) (tickets s))
       ∧ status r = 200
       ∧ body r = JObj ([("success", jbool true);
                         ("message", jstr "OTP sent successfully!")]
                        ++ if strict_eq (NODE_ENV w) (Str "development")
                           then [("otp", JVal (Num (generate_otp w)))] else [])%list.
Proof.
  intros Hf Hp Hd. pose proof (prefix_plus_truthy _ Hp) as Ht.
  unfold send_otp, bind, try_catch, lift, send, ret, store_otp.
  rewrite Hf, Ht. cbn. rewrite Hp. cbn. rewrite Hd.
  eexists. split; [reflexivity |]. split; [reflexivity |].
  cbn. destruct (strict_eq (NODE_ENV w) (Str "development")); reflexivity.
Qed.

(** X8: the code sent by /send-otp is accepted by /verify-otp: after a
    successful /send-otp, a /verify-otp for the same number with the
    generated code, as a number or as a string, is answered 200 with a token
    and removes the code from the store. *)
Theorem send_then_verify w w' req s p otp :
  field (req_body req) "phoneNumber" = Str p →
  String.prefix "+" p = true →
  twilio_create w ("Your OTP code is: " ++ pretty (generate_otp w)) (Str p) = Normal tt →
  generate_otp w ≠ 0%Z →
  otp = Num (generate_otp w) ∨ otp = Str (pretty (generate_otp w)) →
  ∃ r1 s1 r2 s2,
    send_otp w req s = (Normal r1, s1)
    ∧ verify_otp w' (otp_request (Str p) otp) s1 = (Normal r2, s2)
    ∧ status r2 = 200
    ∧ otpStore s2 !! p = None
    ∧ (∃ token, body r2 = JObj [("success", jbool true);
                                ("message", jstr "OTP verified successfully!");
                                ("token", jstr token)]).
Proof.
  intros Hf Hp Hd Hnz Hotp.
  destruct (send_otp_success w req s p Hf Hp Hd) as (r1 & E1 & _).
  exists r1. eexists. 
  pose proof (prefix_plus_truthy _ Hp) as Ht.
  pose proof (verify_otp_match w'
                (mkState (<[p := pretty (generate_otp w)]> (otpStore s))
                         (timers s ++ [(Date_now w 0 + 5 * 60 * 1000, p)])%list
                         (users s) (tickets s))
                (Str p) (Str (pretty (generate_otp w))) (pretty (generate_otp w))
                Ht (truthy_pretty _) (lookup_insert_eq _ _ _)
                (pretty_Z_nonempty _) eq_refl) as E2.
  do 2 eexists. split; [exact E1 |]. split.
  - destruct Hotp as [-> | ->]; [rewrite verify_otp_toString by assumption |];
      exact E2.
  - split; [reflexivity |]. split; [cbn; apply lookup_delete_eq |].
    eexists. reflexivity.
Qed.

Lemma send_then_verify_witness :
  ∃ r1 s1 r2 s2,
    send_otp sample_world (phone_request (Str "+911234567891")) empty_state = (Normal r1, s1)
    ∧ verify_otp sample_world (otp_request (Str "+911234567891") (Num 550000)) s1
      = (Normal r2, s2)
    ∧ status r2 = 200
    ∧ otpStore s2 !! "+911234567891" = None
    ∧ (∃ token, body r2 = JObj [("success", jbool true);
                                ("message", jstr "OTP verified successfully!");
                                ("token", jstr token)]).
Proof.
  apply (send_then_verify sample_world sample_world
           (phone_request (Str "+911234567891")) empty_state "+911234567891"
           (Num 550000) eq_refl eq_refl eq_refl);
    [discriminate | by left].
Defined.

(** X9: at most one code is live per number.  After a second successful
    /send-otp for the same number with a different code, the store holds the
    second code only: a /verify-otp with the first code is answered 400
    "Invalid OTP." and leaves the second code in place. *)
Theorem resend_overwrites w1 w2 w3 req1 req2 s p :
  field (req_body req1) "phoneNumber" = Str p →
  field (req_body req2) "phoneNumber" = Str p →
  String.prefix "+" p = true →
  twilio_create w1 ("Your OTP code is: " ++ pretty (generate_otp w1)) (Str p) = Normal tt →
  twilio_create w2 ("Your OTP code is: " ++ pretty (generate_otp w2)) (Str p) = Normal tt →
  generate_otp w1 ≠ generate_otp w2 →
  ∃ r1 s1 r2 s2,
    send_otp w1 req1 s = (Normal r1, s1)
    ∧ send_otp w2 req2 s1 = (Normal r2, s2)
    ∧ otpStore s2 !! p = Some (pretty (generate_otp w2))
    ∧ verify_otp w3 (otp_request (Str p) (Str (pretty (generate_otp w1)))) s2
      = (Normal (response 400 false "Invalid OTP."), s2).
Proof.
  intros Hf1 Hf2 Hp Hd1 Hd2 Hne.
  destruct (send_otp_success w1 req1 s p Hf1 Hp Hd1) as (r1 & E1 & _).
  set (s1 := mkState (<[p := pretty (generate_otp w1)]> (otpStore s))
                     (timers s ++ [(Date_now w1 0 + 5 * 60 * 1000, p)])%list
                     (users s) (tickets s)) in *.
  destruct (send_otp_success w2 req2 s1 p Hf2 Hp Hd2) as (r2 & E2 & _).
  exists r1, s1, r2. eexists.
  split; [exact E1 |]. split; [exact E2 |].
  split; [cbn; apply lookup_insert_eq |].
  pose proof (prefix_plus_truthy _ Hp) as Ht.
  unfold verify_otp, bind, get_state, send, ret, lift. cbn -[truthy].
  rewrite Ht, truthy_pretty. cbn -[truthy].
  unfold otp_get. rewrite lookup_insert_eq. rewrite truthy_pretty. cbn.
  unfold strict_eq. rewrite bool_decide_eq_false_2; [reflexivity |].
  intros [= E]. apply Hne. symmetry. by apply (inj pretty).
Qed.

Lemma resend_overwrites_witness :
  ∃ r1 s1 r2 s2,
    send_otp sample_world (phone_request (Str "+911234567891")) empty_state = (Normal r1, s1)
    ∧ send_otp four_minutes_later (phone_request (Str "+911234567891")) s1 = (Normal r2, s2)
    ∧ otpStore s2 !! "+911234567891" = Some "325000"
    ∧ verify_otp sample_world (otp_request (Str "+911234567891") (Str "550000")) s2
      = (Normal (response 400 false "Invalid OTP."), s2).
Proof.
  apply (resend_overwrites sample_world four_minutes_later sample_world
           (phone_request (Str "+911234567891")) (phone_request (Str "+911234567891"))
           empty_state "+911234567891" eq_refl eq_refl eq_refl eq_refl eq_refl).
  discriminate.
Defined.

(** X10: the response of a successful /send-otp carries the code itself
    exactly when NODE_ENV is 'development'; otherwise it has no [otp]
    property. *)
Theorem send_otp_discloses_code_in_development_only w req s p :
  field (req_body req) "phoneNumber" = Str p →
  String.prefix "+" p = true →
  twilio_create w ("Your OTP code is: " ++ pretty (generate_otp w)) (Str p) = Normal tt →
  ∃ r s' fields, send_otp w req s = (Normal r, s') ∧ body r = JObj fields ∧
    jfield fields "otp"
    = if bool_decide (NODE_ENV w = Str "development")
      then Some (JVal (Num (generate_otp w))) else None.
Proof.
  intros Hf Hp Hd.
  destruct (send_otp_success w req s p Hf Hp Hd) as (r & E & _ & Hb).
  exists r. do 2 eexists. split; [exact E |]. split; [exact Hb |].
  unfold strict_eq. destruct (bool_decide (NODE_ENV w = Str "development")); reflexivity.
Qed.

Lemma send_otp_discloses_code_in_development_only_witness :
  ∃ r s' fields,
    send_otp sample_world (phone_request (Str "+911234567891")) empty_state = (Normal r, s')
    ∧ body r = JObj fields ∧ jfield fields "otp" = None.
Proof.
  apply (send_otp_discloses_code_in_development_only sample_world
           (phone_request (Str "+911234567891")) empty_state "+911234567891");
    reflexivity.
Defined.

(** X11: /verify-otp answers 400 and changes nothing when the phone number
    or the code is missing (or empty, or the number 0). *)
Theorem verify_otp_requires_both_fields w req s :
  truthy (field (req_body req) "phoneNumber") = false
  ∨ truthy (field (req_body req) "otp") = false →
  verify_otp w req s
  = (Normal (response 400 false "Phone number and OTP are required."), s).
Proof.
  intros H. unfold verify_otp.
  destruct H as [-> | ->]; [reflexivity |].
  rewrite orb_true_r. reflexivity.
Qed.

Lemma verify_otp_requires_both_fields_witness :
  verify_otp sample_world (phone_request (Str "+911234567891"))
    (mkState {[ "+911234567891" := "123456" ]} [] [] [])
  = (Normal (response 400 false "Phone number and OTP are required."),
     mkState {[ "+911234567891" := "123456" ]} [] [] []).
Proof. apply verify_otp_requires_both_fields. by right. Defined.

(** ** Registration and login, continued *)

Lemma path_value_string w now k d (o : Obj) v :
  field o k = v → truthy v = true →
  path_value w now (mkPath k TString d) o = (Some (Str (ToString w v)), true).
Proof. unfold path_value. cbn. intros -> Ht. by destruct v. Qed.

(** The document that [new User({ name, email, password })] builds. *)
Lemma new_User w now name email h :
  truthy name = true → truthy email = true →
  Model w now userSchema [("name", name); ("email", email); ("password", Str h)]
  = mkDocument
      (<["_id" := ObjectId (new_ObjectId w)]>
         (<["name" := Str (ToString w name)]>
            (<["email" := Str (ToString w email)]>
               (<["password" := Str h]>
                  (<["createdAt" := DateV (Some now)]> ∅)))))
      true true.
Proof.
  intros Hn He. unfold Model, userSchema. cbn [construct].
  rewrite (path_value_string w now "name" NoDefault
             [("name", name); ("email", email); ("password", Str h)] name eq_refl Hn).
  rewrite (path_value_string w now "email" NoDefault
             [("name", name); ("email", email); ("password", Str h)] email eq_refl He).
  reflexivity.
Qed.

(** X12: /register answers 400 and changes nothing when the name, the email
    or the password is missing or empty. *)
Theorem register_requires_all_fields w req s :
  truthy (field (req_body req) "name") = false
  ∨ truthy (field (req_body req) "email") = false
  ∨ truthy (field (req_body req) "password") = false →
  register w req s = (Normal (response 400 false "All fields are required."), s).
Proof.
  intros H. unfold register, try_catch.
  destruct H as [-> | [-> | ->]]; rewrite ?orb_true_r; reflexivity.
Qed.

Lemma register_requires_all_fields_witness :
  register sample_world (register_request (Str "A") (Str "a@x.com") (Str "")) empty_state
  = (Normal (response 400 false "All fields are required."), empty_state).
Proof. apply register_requires_all_fields. right. by right. Defined.

Lemma findOne_email_truthy w k email s :
  truthy email = true →
  findOne w k Users userSchema [("email", email)] s
  = if db_ok w k
    then (Normal ((λ d, mkDocument d true false)
                    <$> List.find (matches [("email", Str (ToString w email))]) (users s)), s)
    else (Throw MongoError, s).
Proof. intros Ht. unfold findOne. by destruct email. Qed.

(** The two outcomes of /register. *)
Lemma register_cases w req s :
  let name := field (req_body req) "name" in
  let email := field (req_body req) "email" in
  let password := field (req_body req) "password" in
  ∃ r s', register w req s = (Normal r, s') ∧
    (((status r = 400 ∨ status r = 500) ∧ s' = s)
     ∨ (∃ h u,
          bcrypt_hash w password = Normal h
          ∧ u = <["__v" := Num 0]>
                  (<["_id" := ObjectId (new_ObjectId w)]>
                     (<["name" := Str (ToString w name)]>
                        (<["email" := Str (ToString w email)]>
                           (<["password" := Str h]>
                              (<["createdAt" := DateV (Some (Date_now w 0))]> ∅)))))
          ∧ s' = mkState (otpStore s) (timers s) (users s ++ [u]) (tickets s)
          ∧ r = mkResponse 201
                  (JObj [("success", jbool true);
                         ("message", jstr "User registered successfully");
                         ("token",
                          jstr (jwt_sign w
                                  (payload [("userId", ObjectId (new_ObjectId w));
                                            ("email", Str (ToString w email))])));
                         ("user",
                          JObj [("id", JVal (ObjectId (new_ObjectId w)));
                                ("name", JVal (Str (ToString w name)));
                                ("email", JVal (Str (ToString w email)))])])
          ∧ truthy email = true
          ∧ List.find (matches [("email", Str (ToString w email))]) (users s) = None)).
Proof.
  intros name email password. unfold register, try_catch, bind, lift.
  fold name email password.
  destruct (truthy name) eqn:Hn; cbn -[truthy Model save send payload findOne_or];
    [| eexists; eexists; split; [reflexivity | left; split; [(by left) || (by right) | reflexivity]]].
  destruct (truthy email) eqn:He; cbn -[truthy Model save send payload findOne_or];
    [| eexists; eexists; split; [reflexivity | left; split; [(by left) || (by right) | reflexivity]]].
  destruct (truthy password) eqn:Hp; cbn -[truthy Model save send payload findOne_or];
    [| eexists; eexists; split; [reflexivity | left; split; [(by left) || (by right) | reflexivity]]].
  unfold findOne_or. rewrite (findOne_email_truthy w 0 email s He).
  destruct (db_ok w 0);
    [| eexists; eexists; split; [reflexivity | left; split; [(by left) || (by right) | reflexivity]]].
  destruct (List.find _ (users s)) as [x|] eqn:Hfind; cbn -[Model save send payload];
    [eexists; eexists; split; [reflexivity | left; split; [(by left) || (by right) | reflexivity]] |].
  destruct (bcrypt_hash w password) as [h|e];
    [| eexists; eexists; split; [reflexivity | left; split; [(by left) || (by right) | reflexivity]]].
  rewrite (new_User w (Date_now w 0) name email h Hn He).
  unfold save. cbn [cast_ok isNew doc negb].
  destruct (db_ok w 1); cbn [negb];
    [| eexists; eexists; split; [reflexivity | left; split; [(by left) || (by right) | reflexivity]]].
  eexists; eexists. split; [reflexivity |]. right.
  exists h. eexists. split; [reflexivity |]. split; [reflexivity |].
  split; [reflexivity |]. split; [| split; reflexivity].
  unfold send, ret, get. cbn. reflexivity.
Qed.

(** X13: every /register call is answered, and either is answered 400 or
    500 and leaves the state as it was, or is answered 201 and appends
    exactly one user.  That user holds the bcrypt hash as its password, not the
    password submitted, and the response carries the token and the fields
    id, name and email only. *)
Theorem register_outcome w req s :
  let name := field (req_body req) "name" in
  let email := field (req_body req) "email" in
  let password := field (req_body req) "password" in
  ∃ r s', register w req s = (Normal r, s') ∧
    (((status r = 400 ∨ status r = 500) ∧ s' = s)
     ∨ (∃ h u,
          bcrypt_hash w password = Normal h
          ∧ u = <["__v" := Num 0]>
                  (<["_id" := ObjectId (new_ObjectId w)]>
                     (<["name" := Str (ToString w name)]>
                        (<["email" := Str (ToString w email)]>
                           (<["password" := Str h]>
                              (<["createdAt" := DateV (Some (Date_now w 0))]> ∅)))))
          ∧ s' = mkState (otpStore s) (timers s) (users s ++ [u]) (tickets s)
          ∧ r = mkResponse 201
                  (JObj [("success", jbool true);
                         ("message", jstr "User registered successfully");
                         ("token",
                          jstr (jwt_sign w
                                  (payload [("userId", ObjectId (new_ObjectId w));
                                            ("email", Str (ToString w email))])));
                         ("user",
                          JObj [("id", JVal (ObjectId (new_ObjectId w)));
                                ("name", JVal (Str (ToString w name)));
                                ("email", JVal (Str (ToString w email)))])]))).
Proof.
  intros name email password.
  destruct (register_cases w req s) as (r & s' & E & [H | (h & u & Hh & Hu & Hs & Hr & _)]).
  - exists r, s'. split; [exact E | by left].
  - exists r, s'. split; [exact E |]. right. by exists h, u.
Qed.

(** What /login answers when the first user with the email is [u] and
    bcrypt accepts the password. *)
Lemma login_success w req s e u :
  field (req_body req) "email" = Str e → e ≠ "" →
  truthy (field (req_body req) "password") = true →
  db_ok w 0 = true →
  List.find (matches [("email", Str e)]) (users s) = Some u →
  bcrypt_compare w (field (req_body req) "password") (get u "password") = Normal true →
  login w req s
  = (Normal (mkResponse 200
       (stringify
          (JObj [("success", jbool true);
                 ("message", jstr "Login successful");
                 ("token", jstr (jwt_sign w (payload [("userId", get u "_id");
                                                      ("email", get u "email");
                                                      ("phoneNumber", get u "phoneNumber")])));
                 ("user", JObj [("id", JVal (get u "_id"));
                                ("name", JVal (get u "name"));
                                ("email", JVal (get u "email"));
                                ("phoneNumber", JVal (get u "phoneNumber"))])]))), s).
Proof.
  intros He Hne Hp Hdb Hfind Hcmp.
  unfold login, try_catch, bind.
  rewrite He, Hp. cbn -[findOne]. rewrite (String_eqb_empty _ Hne). cbn -[findOne].
  rewrite findOne_email by assumption. rewrite Hfind.
  cbn -[send payload]. unfold lift. rewrite Hcmp. reflexivity.
Qed.

(** X14: a registration can log in.  After a /register answered 201, a
    /login with the same email and a password that bcrypt accepts against
    the stored hash is answered 200; its token and its [user] object carry
    the identifier given at registration, and the state is unchanged. *)
Theorem register_then_login w1 w2 req1 req2 s r1 s1 e h :
  field (req_body req1) "email" = Str e →
  register w1 req1 s = (Normal r1, s1) → status r1 = 201 →
  bcrypt_hash w1 (field (req_body req1) "password") = Normal h →
  field (req_body req2) "email" = Str e →
  truthy (field (req_body req2) "password") = true →
  db_ok w2 0 = true →
  bcrypt_compare w2 (field (req_body req2) "password") (Str h) = Normal true →
  login w2 req2 s1
  = (Normal (mkResponse 200
       (JObj [("success", jbool true);
              ("message", jstr "Login successful");
              ("token", jstr (jwt_sign w2 (payload [("userId", ObjectId (new_ObjectId w1));
                                                    ("email", Str e)])));
              ("user", JObj [("id", JVal (ObjectId (new_ObjectId w1)));
                             ("name", JVal (Str (ToString w1 (field (req_body req1) "name"))));
                             ("email", JVal (Str e))])])), s1).
Proof.
  intros He1 Hreg Hst Hh He2 Hp2 Hdb Hcmp.
  destruct (register_cases w1 req1 s)
    as (r & s' & E & [[[Hne | Hne] _] | (h' & u & Hh' & Hu & Hs & Hr & Hte & Hfind)]);
    rewrite Hreg in E; injection E as <- <-; [congruence | congruence |].
  rewrite Hh in Hh'. injection Hh' as <-.
  rewrite He1 in *. cbn [ToString] in *.
  assert (Hne : e ≠ "") by (intros ->; discriminate).
  assert (Hfu : List.find (matches [("email", Str e)]) (users s1) = Some u).
  { rewrite Hs. cbn [users]. apply find_first.
    - intros y Hy. apply list_elem_of_In in Hy. by apply (find_none _ _ Hfind).
    - rewrite matches_email. apply bool_decide_eq_true_2. rewrite Hu. by simplify_map_eq. }
  rewrite (login_success w2 req2 s1 e u He2 Hne Hp2 Hdb Hfu).
  - rewrite Hu. reflexivity.
  - rewrite Hu. unfold get. simplify_map_eq. exact Hcmp.
Qed.

Lemma register_then_login_witness :
  ∃ r1 s1,
    register sample_world (register_request (Str "A") (Str "a@x.com") (Str "secret"))
      empty_state = (Normal r1, s1)
    ∧ login sample_world (login_request (Str "a@x.com") (Str "secret")) s1
      = (Normal (mkResponse 200
           (JObj [("success", jbool true);
                  ("message", jstr "Login successful");
                  ("token", jstr "signed.jwt.token");
                  ("user", JObj [("id", JVal (ObjectId "a11ce"));
                                 ("name", JVal (Str "A"));
                                 ("email", JVal (Str "a@x.com"))])])), s1).
Proof.
  do 2 eexists. split; [by vm_compute |].
  eapply (register_then_login sample_world sample_world
            (register_request (Str "A") (Str "a@x.com") (Str "secret"))
            (login_request (Str "a@x.com") (Str "secret")) empty_state _ _
            "a@x.com" "$2a$10$hash" eq_refl);
    [by vm_compute | reflexivity | reflexivity | reflexivity | reflexivity
     | reflexivity | reflexivity].
Defined.

(** ** Tickets, continued *)

(** X15: /create-ticket answers 400 and changes nothing when the source, the
    destination, the phone number or the booking date is missing or empty,
    even for an authenticated request. *)
Theorem create_ticket_requires_all_fields w req d s :
  authenticated w req d →
  truthy (field (req_body req) "source") = false
  ∨ truthy (field (req_body req) "destination") = false
  ∨ truthy (field (req_body req) "phoneNumber") = false
  ∨ truthy (field (req_body req) "bookingDate") = false →
  create_ticket w req s
  = (Normal (response 400 false
       "All fields are required (source, destination, phoneNumber, bookingDate)."), s).
Proof.
  intros Hauth H. unfold create_ticket.
  rewrite (authenticateToken_pass _ _ _ _ Hauth).
  unfold create_ticket_handler. cbn [with_user req_body].
  destruct H as [-> | [-> | [-> | ->]]]; rewrite ?orb_true_r; reflexivity.
Qed.

Lemma create_ticket_requires_all_fields_witness :
  create_ticket sample_world
    (mkRequest (Str "Bearer token-of-alice")
       [("source", Str "X"); ("destination", Str "Y"); ("phoneNumber", Str "+911234567890")]
       "" ∅)
    empty_state
  = (Normal (response 400 false
       "All fields are required (source, destination, phoneNumber, bookingDate)."),
     empty_state).
Proof.
  apply (create_ticket_requires_all_fields sample_world _
           {[ "userId" := ObjectId "a11ce" ]}); [by split |].
  right. right. by right.
Defined.

Lemma construct_flag_false w now sch o p :
  p ∈ sch → (path_value w now p o).2 = false → (construct w now sch o).2 = false.
Proof.
  induction sch as [|q r IH]; intros Hin Hp; [inversion Hin |].
  cbn. destruct (construct w now r o) as [d ok]. cbn in IH.
  apply elem_of_cons in Hin as [<- | Hin].
  - destruct (path_value w now p o) as [v okp]. cbn in *. subst. apply andb_false_r.
  - destruct (path_value w now q o) as [v okq]. cbn. rewrite IH by assumption.
    reflexivity.
Qed.

Lemma Model_cast_ok w now sch o : cast_ok (Model w now sch o) = (construct w now sch o).2.
Proof. unfold Model. by destruct (construct w now sch o). Qed.

(** X16: a booking date that does not parse is not reported as an invalid
    input: the ticket built with the Invalid Date fails validation on
    [save], and /create-ticket answers 500 "Failed to create ticket."
    without storing anything. *)
Theorem create_ticket_invalid_date w req d s :
  authenticated w req d →
  truthy (field (req_body req) "source") = true →
  truthy (field (req_body req) "destination") = true →
  truthy (field (req_body req) "phoneNumber") = true →
  truthy (field (req_body req) "bookingDate") = true →
  Date_parse w (field (req_body req) "bookingDate") = None →
  create_ticket w req s = (Normal (response 500 false "Failed to create ticket."), s).
Proof.
  intros Hauth Hs Hd Hp Hb Hparse. unfold create_ticket.
  rewrite (authenticateToken_pass _ _ _ _ Hauth).
  unfold create_ticket_handler, try_catch, bind, lift.
  cbn [with_user req_body user].
  rewrite Hs, Hd, Hp, Hb, Hparse. cbn [negb orb].
  destruct (qrcode_toDataURL w _) as [qrCode|e]; [| reflexivity].
  match goal with |- context [save w 0 Tickets ?m s] => set (ticket := m) end.
  assert (Hbad : cast_ok ticket = false).
  { unfold ticket. rewrite Model_cast_ok.
    apply (construct_flag_false _ _ _ _ (mkPath "bookingDate" TDate NoDefault)).
    - apply list_elem_of_In. cbn. tauto.
    - reflexivity. }
  unfold save. rewrite Hbad. reflexivity.
Qed.

Lemma create_ticket_invalid_date_witness :
  create_ticket sample_world
    (mkRequest (Str "Bearer token-of-alice")
       [("source", Str "X"); ("destination", Str "Y");
        ("phoneNumber", Str "+911234567890"); ("bookingDate", Str "tomorrow")] "" ∅)
    empty_state
  = (Normal (response 500 false "Failed to create ticket."), empty_state).
Proof.
  apply (create_ticket_invalid_date sample_world _ {[ "userId" := ObjectId "a11ce" ]});
    [by split | reflexivity..].
Defined.

Lemma new_Ticket w h source destination phoneNumber date qrCode expiresAt :
  truthy source = true → truthy destination = true → truthy phoneNumber = true →
  Model w (Date_now w 2) ticketSchema
    ([("ticketId", Str ("TKT-" ++ toUpperCase (toString36 (Date_now w 0))))]
     ++ [("userId", ObjectId h); ("source", source); ("destination", destination);
         ("phoneNumber", phoneNumber); ("bookingDate", DateV (Some date))]
     ++ [("qrCode", Str qrCode); ("expiresAt", expiresAt)])
  = mkDocument (built_ticket w h source destination phoneNumber date qrCode) true true.
Proof.
  intros Hs Hd Hp. unfold Model, ticketSchema. cbn [construct].
  set (o := ([("ticketId", Str ("TKT-" ++ toUpperCase (toString36 (Date_now w 0))))]
     ++ [("userId", ObjectId h); ("source", source); ("destination", destination);
         ("phoneNumber", phoneNumber); ("bookingDate", DateV (Some date))]
     ++ [("qrCode", Str qrCode); ("expiresAt", expiresAt)])%list).
  rewrite (path_value_string w (Date_now w 2) "source" NoDefault o source eq_refl Hs).
  rewrite (path_value_string w (Date_now w 2) "destination" NoDefault o destination eq_refl Hd).
  rewrite (path_value_string w (Date_now w 2) "phoneNumber" NoDefault o phoneNumber eq_refl Hp).
  reflexivity.
Qed.

(** What /create-ticket does when the QR encoder, the date and the storage
    layer all answer. *)
Lemma create_ticket_success w req d s h date qrCode :
  let source := field (req_body req) "source" in
  let destination := field (req_body req) "destination" in
  let phoneNumber := field (req_body req) "phoneNumber" in
  let bookingDate := field (req_body req) "bookingDate" in
  authenticated w req d → get d "userId" = ObjectId h →
  truthy source = true → truthy destination = true →
  truthy phoneNumber = true → truthy bookingDate = true →
  Date_parse w bookingDate = Some date →
  qrcode_toDataURL w [("userId", ObjectId h); ("source", source);
                      ("destination", destination); ("phoneNumber", phoneNumber);
                      ("bookingDate", DateV (Some date))] = Normal qrCode →
  db_ok w 0 = true →
  create_ticket w req s
  = (Normal (mkResponse 201
       (JObj [("success", jbool true);
              ("message", jstr "Ticket created successfully");
              ("ticket",
               JObj [("ticketId", jstr ("TKT-" ++ toUpperCase (toString36 (Date_now w 0))));
                     ("source", JVal source);
                     ("destination", JVal destination);
                     ("phoneNumber", JVal phoneNumber);
                     ("bookingDate", JVal bookingDate);
                     ("qrCode", jstr qrCode);
                     ("createdAt", JVal (DateV (Some (Date_now w 2))))])])),
     mkState (otpStore s) (timers s) (users s)
       (tickets s ++ [<["__v" := Num 0]>
                        (built_ticket w h source destination phoneNumber date qrCode)])).
Proof.
  intros source destination phoneNumber bookingDate Hauth Hu Hs Hd Hp Hb Hdate Hqr Hdb.
  unfold create_ticket. rewrite (authenticateToken_pass _ _ _ _ Hauth).
  unfold create_ticket_handler, try_catch, bind, lift.
  cbn [with_user req_body user].
  fold source destination phoneNumber bookingDate.
  rewrite Hs, Hd, Hp, Hb, Hu, Hdate, Hqr. cbn [negb orb].
  rewrite (new_Ticket w h source destination phoneNumber date qrCode _ Hs Hd Hp).
  unfold save. cbn [cast_ok isNew doc negb]. rewrite Hdb. cbn [negb].
  unfold send, ret, jbool, jstr.
  cbn -[defined toUpperCase toString36 String.append built_ticket].
  rewrite !defined_truthy by (assumption || reflexivity).
  reflexivity.
Qed.

(** X17: a ticket that was created can be fetched.  After a /create-ticket
    answered 201, GET /ticket/:id with the identifier of the response returns
    the stored ticket: it is 'active', owned by the creator and carries the
    encoded code.  (No earlier ticket has the same identifier.) *)
Theorem create_then_get w w' req req' d d' s h date qrCode :
  let source := field (req_body req) "source" in
  let destination := field (req_body req) "destination" in
  let phoneNumber := field (req_body req) "phoneNumber" in
  let bookingDate := field (req_body req) "bookingDate" in
  let ticketId := "TKT-" ++ toUpperCase (toString36 (Date_now w 0)) in
  authenticated w req d → get d "userId" = ObjectId h →
  truthy source = true → truthy destination = true →
  truthy phoneNumber = true → truthy bookingDate = true →
  Date_parse w bookingDate = Some date →
  qrcode_toDataURL w [("userId", ObjectId h); ("source", source);
                      ("destination", destination); ("phoneNumber", phoneNumber);
                      ("bookingDate", DateV (Some date))] = Normal qrCode →
  db_ok w 0 = true →
  (∀ t, t ∈ tickets s → t !! "ticketId" ≠ Some (Str ticketId)) →
  authenticated w' req' d' → params_id req' = ticketId → db_ok w' 0 = true →
  ∃ r1 s1 t,
    create_ticket w req s = (Normal r1, s1) ∧ status r1 = 201
    ∧ get_ticket w' req' s1
      = (Normal (mkResponse 200 (JObj [("success", jbool true); ("ticket", JDoc t)])), s1)
    ∧ t !! "ticketId" = Some (Str ticketId)
    ∧ t !! "status" = Some (Str "active")
    ∧ t !! "userId" = Some (ObjectId h)
    ∧ t !! "qrCode" = Some (Str qrCode).
Proof.
  intros source destination phoneNumber bookingDate ticketId
    Hauth Hu Hs Hd Hp Hb Hdate Hqr Hdb Hfresh Hauth' Hid Hdb'.
  pose proof (create_ticket_success w req d s h date qrCode
                Hauth Hu Hs Hd Hp Hb Hdate Hqr Hdb) as E.
  fold source destination phoneNumber in E.
  set (t := <["__v" := Num 0]>
              (built_ticket w h source destination phoneNumber date qrCode)) in *.
  do 2 eexists. exists t. split; [exact E |]. split; [reflexivity |].
  assert (Ht : t !! "ticketId" = Some (Str ticketId)) by reflexivity.
  split; [| repeat split; reflexivity].
  unfold get_ticket. rewrite (authenticateToken_pass _ _ _ _ Hauth').
  unfold get_ticket_handler, try_catch, bind, findOne.
  cbn [with_user params_id]. rewrite Hid. cbn -[t ticketId]. rewrite Hdb'.
  rewrite find_first; [reflexivity | |].
  - intros y Hy. rewrite <- not_true_iff_false, matches_ticketId. by apply Hfresh.
  - by apply matches_ticketId.
Qed.

Lemma create_then_get_witness :
  ∃ r1 s1 t,
    create_ticket sample_world (create_request "token-of-alice") empty_state
    = (Normal r1, s1) ∧ status r1 = 201
    ∧ get_ticket sample_world (ticket_request "token-of-bob" "TKT-M5D4RUO0") s1
      = (Normal (mkResponse 200 (JObj [("success", jbool true); ("ticket", JDoc t)])), s1)
    ∧ t !! "ticketId" = Some (Str "TKT-M5D4RUO0")
    ∧ t !! "status" = Some (Str "active")
    ∧ t !! "userId" = Some (ObjectId "a11ce")
    ∧ t !! "qrCode" = Some (Str "data:image/png;base64,QR").
Proof.
  assert (Hfresh : ∀ t : Doc, t ∈ tickets empty_state →
                     t !! "ticketId" ≠ Some (Str "TKT-M5D4RUO0")).
  { intros t Ht. inversion Ht. }
  exact (create_then_get sample_world sample_world
           (create_request "token-of-alice") (ticket_request "token-of-bob" "TKT-M5D4RUO0")
           {[ "userId" := ObjectId "a11ce" ]} {[ "userId" := ObjectId "b0b" ]}
           empty_state "a11ce" 1735689600000 "data:image/png;base64,QR"
           (conj eq_refl eq_refl) eq_refl eq_refl eq_refl eq_refl eq_refl eq_refl eq_refl
           eq_refl Hfresh (conj eq_refl eq_refl) eq_refl eq_refl).
Defined.

(** X18: what the owner of a ticket is answered by /verify-ticket in
    server.js.  When the owner has no registered face (no such user, or no
    [faceImagePath]) the answer is 400 "User face not registered"; when a
    face is registered the answer is 403 "Face verification failed",
    whatever image is submitted.  The state is unchanged in both cases. *)
Theorem verify_ticket_owner_answers w req d h q s t :
  authenticated w req d → get d "userId" = ObjectId h →
  field (req_body req) "qrData" = Str q →
  db_ok w 0 = true → db_ok w 1 = true →
  first_match (has_code_and_owner q h) (tickets s) t →
  let face := match List.find (matches [("_id", ObjectId h)]) (users s) with
              | Some u => get u "faceImagePath"
              | None => Undefined
              end in
  verify_ticket w req s
  = (Normal (if truthy face
             then response 403 false "Face verification failed"
             else response 400 false "User face not registered"), s).
Proof.
  intros Hauth Hd Hq Hdb0 Hdb1 Ht face. unfold verify_ticket.
  rewrite (authenticateToken_pass _ _ _ _ Hauth).
  unfold verify_ticket_with, try_catch, bind. cbn [with_user req_body user].
  rewrite Hd, Hq, findOne_code_and_owner, Hdb0.
  rewrite (find_first_match _ _ _ _ (matches_code_and_owner q h) Ht).
  cbn -[findById]. rewrite findById_user, Hdb1. subst face.
  destruct (List.find _ (users s)) as [u|]; cbn -[compareFaces]; [| reflexivity].
  destruct (truthy (get u "faceImagePath")); cbn -[compareFaces]; [| reflexivity].
  reflexivity.
Qed.

Lemma verify_ticket_owner_answers_witness :
  verify_ticket sample_world (verify_request "token-of-alice")
    (state_with alice (sample_ticket "a11ce" "active"))
  = (Normal (response 400 false "User face not registered"),
     state_with alice (sample_ticket "a11ce" "active"))
  ∧ verify_ticket sample_world (verify_request "token-of-alice")
      (state_with alice_with_face (sample_ticket "a11ce" "active"))
    = (Normal (response 403 false "Face verification failed"),
       state_with alice_with_face (sample_ticket "a11ce" "active")).
Proof.
  split.
  - apply (verify_ticket_owner_answers sample_world (verify_request "token-of-alice")
             {[ "userId" := ObjectId "a11ce" ]} "a11ce" "data:image/png;base64,QR"
             (state_with alice (sample_ticket "a11ce" "active"))
             (sample_ticket "a11ce" "active")
             (conj eq_refl eq_refl) eq_refl eq_refl eq_refl eq_refl).
    apply (first_match_head (has_code_and_owner "data:image/png;base64,QR" "a11ce")
             (sample_ticket "a11ce" "active") []).
    by split.
  - apply (verify_ticket_owner_answers sample_world (verify_request "token-of-alice")
             {[ "userId" := ObjectId "a11ce" ]} "a11ce" "data:image/png;base64,QR"
             (state_with alice_with_face (sample_ticket "a11ce" "active"))
             (sample_ticket "a11ce" "active")
             (conj eq_refl eq_refl) eq_refl eq_refl eq_refl eq_refl).
    apply (first_match_head (has_code_and_owner "data:image/png;base64,QR" "a11ce")
             (sample_ticket "a11ce" "active") []).
    by split.
Defined.

(** ** Ticket identifiers *)

Lemma digit_value_digit36 (d : Z) :
  (0 ≤ d < 36)%Z → digit_value (upper_ascii (digit36 d)) = Some d.
Proof.
  intros Hd.
  assert (∃ k, (k < 36)%nat ∧ d = Z.of_nat k) as (k & Hk & ->)
    by (exists (Z.to_nat d); lia).
  clear Hd. do 36 (destruct k as [|k]; [reflexivity |]). lia.
Qed.

Lemma toString36_go_parse fuel (n : Z) acc :
  (0 ≤ n < 36 ^ Z.of_nat (S fuel))%Z →
  parse36_go (toUpperCase (toString36_go (S fuel) n acc)) 0
  = parse36_go (toUpperCase acc) n.
Proof.
  revert n acc. induction fuel as [|fuel IH]; intros n acc Hn.
  - cbn [toString36_go]. assert (Hlt : (n <? 36)%Z = true) by (apply Z.ltb_lt; lia).
    rewrite Hlt. cbn [toUpperCase parse36_go].
    rewrite digit_value_digit36 by lia. reflexivity.
  - rewrite Nat2Z.inj_succ, Z.pow_succ_r in Hn by lia.
    change (toString36_go (S (S fuel)) n acc)
      with (if (n <? 36)%Z then String (digit36 n) acc
            else toString36_go (S fuel) (n / 36) (String (digit36 (n mod 36)) acc)).
    destruct (n <? 36)%Z eqn:Hlt.
    + apply Z.ltb_lt in Hlt. cbn [toUpperCase parse36_go].
      rewrite digit_value_digit36 by lia. reflexivity.
    + apply Z.ltb_ge in Hlt. rewrite IH.
      * cbn [toUpperCase parse36_go].
        rewrite digit_value_digit36 by (apply Z.mod_pos_bound; lia).
        f_equal. rewrite (Z.div_mod n 36) at 3 by lia. lia.
      * split; [apply Z.div_pos; lia |].
        apply Z.div_lt_upper_bound; lia.
Qed.

(** Reading back what [toString(36).toUpperCase()] wrote gives the number. *)
Lemma parse36_toString36 (n : Z) :
  (0 ≤ n)%Z → parse36 (toUpperCase (toString36 n)) = Some n.
Proof.
  intros Hn. unfold parse36, toString36. rewrite toString36_go_parse; [reflexivity |].
  split; [assumption |].
  destruct (Z.eq_dec n 0) as [-> | Hnz]; [reflexivity |].
  pose proof (Z.log2_spec n ltac:(lia)) as [_ Hlog].
  pose proof (Z.log2_nonneg n) as Hnn.
  rewrite Nat2Z.inj_succ, Z2Nat.id by assumption.
  eapply Z.lt_le_trans; [exact Hlog |].
  apply Z.pow_le_mono_l. lia.
Qed.

(** X19: the ticket identifier determines the clock reading it was derived
    from: two /create-ticket calls are given the same identifier only when
    they read the same millisecond. *)
Theorem ticketId_injective (t1 t2 : Z) :
  (0 ≤ t1)%Z → (0 ≤ t2)%Z →
  "TKT-" ++ toUpperCase (toString36 t1) = "TKT-" ++ toUpperCase (toString36 t2) →
  t1 = t2.
Proof.
  intros H1 H2 E. cbn [String.append] in E. injection E as E.
  change (toUpperCase (toString36 t1) = toUpperCase (toString36 t2)) in E.
  pose proof (parse36_toString36 t1 H1) as P1.
  pose proof (parse36_toString36 t2 H2) as P2.
  rewrite E in P1. congruence.
Qed.

Lemma ticketId_injective_witness :
  1735689600000%Z = Date_now sample_world 0.
Proof. apply ticketId_injective; [lia | cbn; lia | reflexivity]. Defined.

(** ** The scheme of the authorization header *)

Lemma split_space_no_space s : no_space s = true → split_space s = [s].
Proof.
  induction s as [|c r IH]; [reflexivity |]. cbn. intros [Hc Hr]%andb_true_iff.
  apply negb_true_iff in Hc. rewrite Hc, (IH Hr). reflexivity.
Qed.

Lemma split_space_app a b :
  no_space a = true → split_space (a ++ " " ++ b) = a :: split_space b.
Proof.
  induction a as [|c r IH]; [reflexivity |]. cbn [no_space]. intros [Hc Hr]%andb_true_iff.
  apply negb_true_iff in Hc.
  change (split_space (String c (r ++ " " ++ b)) = String c r :: split_space b).
  cbn [split_space]. rewrite Hc, (IH Hr). reflexivity.
Qed.

(** X20: the middleware takes the second word of the header whatever the
    first one is: a valid token passes under any scheme word, and the same
    token sent alone, without a scheme word, is answered 401. *)
Theorem authenticateToken_any_scheme w scheme tok body id d next s :
  no_space scheme = true → no_space tok = true → tok ≠ "" →
  jwt_verify w tok = Some d →
  authenticateToken w (mkRequest (Str (scheme ++ " " ++ tok)) body id ∅) next s
  = next (mkRequest (Str (scheme ++ " " ++ tok)) body id d) s
  ∧ authenticateToken w (mkRequest (Str tok) body id ∅) next s
    = (Normal (response 401 false "Access denied. No token provided."), s).
Proof.
  intros Hs Ht Hne Hv. unfold authenticateToken, bearer. cbn [authorization].
  rewrite (split_space_app _ _ Hs), !(split_space_no_space _ Ht). cbn [List.map nth].
  split.
  - destruct tok; [congruence |]. cbn [truthy negb ToString String.eqb]. cbn.
    cbn in Hv. rewrite Hv. reflexivity.
  - reflexivity.
Qed.

Lemma authenticateToken_any_scheme_witness :
  authenticateToken sample_world
    (mkRequest (Str ("Basic" ++ " " ++ "token-of-alice")) [] "" ∅)
    (fun req => ret (response 200 true "in")) empty_state
  = (Normal (response 200 true "in"), empty_state)
  ∧ authenticateToken sample_world (mkRequest (Str "token-of-alice") [] "" ∅)
      (fun req => ret (response 200 true "in")) empty_state
    = (Normal (response 401 false "Access denied. No token provided."), empty_state).
Proof.
  apply (authenticateToken_any_scheme sample_world "Basic" "token-of-alice" [] ""
           {[ "userId" := ObjectId "a11ce" ]}
           (fun req => ret (response 200 true "in")) empty_state);
    [reflexivity | reflexivity | discriminate | reflexivity].
Defined.

(** ** POST /register-face *)

Lemma skip_word_app ty rest :
  Forall (fun c => is_word c = true) (list_ascii_of_string ty) →
  skip_word (ty ++ ";" ++ rest) = ";" ++ rest.
Proof.
  induction ty as [|c r IH]; [reflexivity |]. intros H.
  change (list_ascii_of_string (String c r)) with (c :: list_ascii_of_string r) in H.
  apply Forall_cons in H as [Hc Hr].
  change (skip_word (String c (r ++ ";" ++ rest)) = ";" ++ rest).
  cbn [skip_word]. rewrite Hc. exact (IH Hr).
Qed.

Lemma drop_prefix_app p s : drop_prefix p (p ++ s) = Some s.
Proof.
  induction p as [|c r IH]; [by destruct s |].
  change (drop_prefix (String c r) (String c (r ++ s)) = Some s).
  cbn [drop_prefix]. rewrite Ascii.eqb_refl. exact IH.
Qed.

(** X21: the pattern removes a data-URL header whose image type is a
    non-empty run of word characters, leaving the base64 payload; a header
    with an empty type is not removed. *)
Theorem strip_data_url_header ty data :
  ty ≠ "" → Forall (fun c => is_word c = true) (list_ascii_of_string ty) →
  strip_data_url ("data:image/" ++ ty ++ ";base64," ++ data) = data
  ∧ strip_data_url ("data:image/;base64," ++ data) = "data:image/;base64," ++ data.
Proof.
  intros Hne Hty. split; [| reflexivity].
  unfold strip_data_url. rewrite drop_prefix_app.
  destruct ty as [|c r]; [congruence |].
  change (list_ascii_of_string (String c r)) with (c :: list_ascii_of_string r) in Hty.
  apply Forall_cons in Hty as [Hc Hr].
  change (String c r ++ ";base64," ++ data) with (String c (r ++ ";" ++ "base64," ++ data)).
  cbv iota. rewrite Hc, (skip_word_app _ _ Hr).
  change (";" ++ "base64," ++ data) with (";base64," ++ data).
  rewrite drop_prefix_app. reflexivity.
Qed.

Lemma strip_data_url_header_witness :
  strip_data_url ("data:image/" ++ "jpeg" ++ ";base64," ++ "aGk=") = "aGk="
  ∧ strip_data_url ("data:image/;base64," ++ "aGk=") = "data:image/;base64," ++ "aGk=".
Proof.
  apply strip_data_url_header; [discriminate |].
  repeat constructor.
Defined.

Lemma update_first_split (f : Doc → bool) g l1 t l2 :
  (∀ x, x ∈ l1 → f x = false) → f t = true →
  update_first f g (l1 ++ t :: l2) = (l1 ++ g t :: l2)%list.
Proof.
  intros Hl1 Ht. induction l1 as [|a l1 IH]; cbn.
  - by rewrite Ht.
  - rewrite (Hl1 a) by apply list_elem_of_here. f_equal. apply IH.
    intros x Hx. apply Hl1. by apply list_elem_of_further.
Qed.

Lemma update_first_none (f : Doc → bool) g l :
  (∀ x, x ∈ l → f x = false) → update_first f g l = l.
Proof.
  intros Hl. induction l as [|a l IH]; [reflexivity |]. cbn.
  rewrite (Hl a) by apply list_elem_of_here. f_equal. apply IH.
  intros x Hx. apply Hl. by apply list_elem_of_further.
Qed.

Lemma matches_id_false h (x : Doc) : ¬ has_id h x → matches [("_id", ObjectId h)] x = false.
Proof.
  intros H. destruct (matches _ x) eqn:E; [| reflexivity].
  exfalso. apply H. by apply matches_id.
Qed.

Lemma findByIdAndUpdate_face w h p s :
  findByIdAndUpdate w 0 (ObjectId h) "faceImagePath" (Str p) s
  = if db_ok w 0
    then (Normal (List.find (matches [("_id", ObjectId h)]) (users s)),
          set_collection Users
            (update_first (matches [("_id", ObjectId h)]) (<["faceImagePath" := Str p]>)
               (users s)) s)
    else (Throw MongoError, s).
Proof. reflexivity. Qed.

(** The check of the uploads directory: when the file system accepts the
    call, the directory exists afterwards and no file is touched. *)
Lemma uploads_made fs disk :
  fs_ok fs 0 = true →
  ∃ disk1,
    (if bool_decide (path_join (dirname fs) "uploads" ∈ dirs disk) then Some disk
     else if fs_ok fs 0
          then Some (mkDisk ({[ path_join (dirname fs) "uploads" ]} ∪ dirs disk) (files disk))
          else None) = Some disk1
    ∧ path_join (dirname fs) "uploads" ∈ dirs disk1
    ∧ dirs disk ⊆ dirs disk1
    ∧ files disk1 = files disk.
Proof.
  intros Hfs. rewrite Hfs. case_bool_decide as Hin.
  - exists disk. by repeat split.
  - eexists. split; [reflexivity |]. cbn. repeat split; set_solver.
Qed.

(** X22: without an image (absent, empty, null, 0 or false) the handler
    answers 400 and touches neither the disk nor the store. *)
Theorem register_face_requires_image w fs req disk s :
  truthy (field (req_body req) "image") = false →
  register_face_handler w fs req disk s
  = (Normal (response 400 false "Image is required."), disk, s).
Proof. intros H. unfold register_face_handler. rewrite H. reflexivity. Qed.

Lemma register_face_requires_image_witness :
  register_face_handler sample_world sample_fs
    (face_request (Str "") {[ "userId" := ObjectId "a11ce" ]})
    (mkDisk ∅ ∅) (state_with alice (sample_ticket "a11ce" "active"))
  = (Normal (response 400 false "Image is required."), mkDisk ∅ ∅,
     state_with alice (sample_ticket "a11ce" "active")).
Proof. apply register_face_requires_image. reflexivity. Defined.

(** X23: an image that is truthy but not a string (a number, [true]) has
    no [replace]: the handler answers 500, writes no file and changes no
    user, the uploads directory having been created on the way. *)
Theorem register_face_non_string_image w fs req disk s :
  truthy (field (req_body req) "image") = true →
  (∀ img, field (req_body req) "image" ≠ Str img) →
  fs_ok fs 0 = true →
  ∃ disk',
    register_face_handler w fs req disk s
    = (Normal (response 500 false "Failed to register face."), disk', s)
    ∧ files disk' = files disk
    ∧ path_join (dirname fs) "uploads" ∈ dirs disk'.
Proof.
  intros Ht Hns Hfs. unfold register_face_handler. rewrite Ht. cbn [negb].
  destruct (uploads_made fs disk Hfs) as (disk1 & -> & Hin & _ & Hfiles).
  exists disk1. split; [| by split].
  destruct (field (req_body req) "image") eqn:E; try reflexivity.
  by destruct (Hns s0).
Qed.

Lemma register_face_non_string_image_witness :
  ∃ disk',
    register_face_handler sample_world sample_fs
      (face_request (Num 5) {[ "userId" := ObjectId "a11ce" ]})
      (mkDisk ∅ ∅) empty_state
    = (Normal (response 500 false "Failed to register face."), disk', empty_state)
    ∧ files disk' = files (mkDisk ∅ ∅)
    ∧ path_join (dirname sample_fs) "uploads" ∈ dirs disk'.
Proof.
  apply register_face_non_string_image; [reflexivity | discriminate | reflexivity].
Defined.

Lemma register_face_written w fs req disk s h img :
  get (user req) "userId" = ObjectId h →
  field (req_body req) "image" = Str img → img ≠ "" →
  fs_ok fs 0 = true → fs_ok fs 1 = true →
  ∃ disk',
    register_face_handler w fs req disk s
    = (if db_ok w 0
       then (Normal (response 200 true "Face registered successfully"), disk',
             set_collection Users
               (update_first (matches [("_id", ObjectId h)])
                  (<["faceImagePath" := Str (face_path w fs h)]>) (users s)) s)
       else (Normal (response 500 false "Failed to register face."), disk', s))
    ∧ files disk' = <[face_path w fs h := strip_data_url img]> (files disk)
    ∧ path_join (dirname fs) "uploads" ∈ dirs disk'
    ∧ dirs disk ⊆ dirs disk'.
Proof.
  intros Hu Hi Hne Hfs0 Hfs1. unfold register_face_handler. rewrite Hi, Hu.
  destruct img as [|c r]; [congruence |]. cbn [truthy negb String.eqb].
  destruct (uploads_made fs disk Hfs0) as (disk1 & -> & Hin & Hsub & Hfiles).
  rewrite Hfs1. cbn [ToString]. fold (face_path w fs h).
  rewrite findByIdAndUpdate_face. eexists. split.
  - destruct (db_ok w 0); reflexivity.
  - cbn [files dirs]. rewrite Hfiles. by repeat split.
Qed.

Lemma set_users_same s : set_collection Users (users s) s = s.
Proof. by destruct s. Qed.

(** X24: a signed-in user who sends an image gets 200; the payload of the
    image is on the disk under [uploads/face-<id>-<time>.jpg], no other file
    is touched, and that path is recorded in the first user with the id of
    the token, every other document being left as it was. *)
Theorem register_face_stores w fs req disk s h img l1 u l2 :
  get (user req) "userId" = ObjectId h →
  field (req_body req) "image" = Str img → img ≠ "" →
  fs_ok fs 0 = true → fs_ok fs 1 = true → db_ok w 0 = true →
  users s = (l1 ++ u :: l2)%list → (∀ x, x ∈ l1 → ¬ has_id h x) → has_id h u →
  ∃ disk' s',
    register_face_handler w fs req disk s
    = (Normal (response 200 true "Face registered successfully"), disk', s')
    ∧ files disk' !! face_path w fs h = Some (strip_data_url img)
    ∧ (∀ p, p ≠ face_path w fs h → files disk' !! p = files disk !! p)
    ∧ users s' = (l1 ++ <["faceImagePath" := Str (face_path w fs h)]> u :: l2)%list
    ∧ tickets s' = tickets s ∧ otpStore s' = otpStore s ∧ timers s' = timers s.
Proof.
  intros Hu Hi Hne Hfs0 Hfs1 Hdb Hs Hl1 Hid.
  destruct (register_face_written w fs req disk s h img Hu Hi Hne Hfs0 Hfs1)
    as (disk' & E & Hfiles & _ & _).
  rewrite Hdb in E. eexists _, _. split; [exact E |]. rewrite Hfiles.
  split; [apply lookup_insert_eq |].
  split; [intros p Hp; by apply lookup_insert_ne |].
  cbn. rewrite Hs. split; [| done].
  apply update_first_split; [| by apply matches_id].
  intros x Hx. apply matches_id_false. by apply Hl1.
Qed.

Lemma register_face_stores_witness :
  ∃ disk' s',
    register_face_handler sample_world sample_fs
      (face_request (Str "data:image/jpeg;base64,aGk=") {[ "userId" := ObjectId "a11ce" ]})
      (mkDisk ∅ ∅) (state_with alice (sample_ticket "a11ce" "active"))
    = (Normal (response 200 true "Face registered successfully"), disk', s')
    ∧ files disk' !! face_path sample_world sample_fs "a11ce"
      = Some (strip_data_url "data:image/jpeg;base64,aGk=")
    ∧ (∀ p, p ≠ face_path sample_world sample_fs "a11ce"
            → files disk' !! p = files (mkDisk ∅ ∅) !! p)
    ∧ users s'
      = ([] ++ <["faceImagePath" := Str (face_path sample_world sample_fs "a11ce")]> alice
            :: [])%list
    ∧ tickets s' = tickets (state_with alice (sample_ticket "a11ce" "active"))
    ∧ otpStore s' = otpStore (state_with alice (sample_ticket "a11ce" "active"))
    ∧ timers s' = timers (state_with alice (sample_ticket "a11ce" "active")).
Proof.
  apply (register_face_stores sample_world sample_fs
           (face_request (Str "data:image/jpeg;base64,aGk=") {[ "userId" := ObjectId "a11ce" ]})
           (mkDisk ∅ ∅) (state_with alice (sample_ticket "a11ce" "active"))
           "a11ce" "data:image/jpeg;base64,aGk=" [] alice []);
    try reflexivity; try discriminate.
  intros x Hx. by apply elem_of_nil in Hx.
Defined.

(** X25: when no user has the id of the token (the account is gone), the
    handler still saves the file and answers 200, and the store is left as
    it was: the outcome of the update is not looked at. *)
Theorem register_face_unknown_user w fs req disk s h img :
  get (user req) "userId" = ObjectId h →
  field (req_body req) "image" = Str img → img ≠ "" →
  fs_ok fs 0 = true → fs_ok fs 1 = true → db_ok w 0 = true →
  (∀ x, x ∈ users s → ¬ has_id h x) →
  ∃ disk',
    register_face_handler w fs req disk s
    = (Normal (response 200 true "Face registered successfully"), disk', s)
    ∧ files disk' !! face_path w fs h = Some (strip_data_url img).
Proof.
  intros Hu Hi Hne Hfs0 Hfs1 Hdb Hno.
  destruct (register_face_written w fs req disk s h img Hu Hi Hne Hfs0 Hfs1)
    as (disk' & E & Hfiles & _ & _).
  rewrite Hdb in E. exists disk'. rewrite Hfiles. split; [| apply lookup_insert_eq].
  rewrite E, update_first_none, set_users_same; [reflexivity |].
  intros x Hx. apply matches_id_false. by apply Hno.
Qed.

Lemma register_face_unknown_user_witness :
  ∃ disk',
    register_face_handler sample_world sample_fs
      (face_request (Str "aGk=") {[ "userId" := ObjectId "b0b" ]})
      (mkDisk ∅ ∅) (state_with alice (sample_ticket "a11ce" "active"))
    = (Normal (response 200 true "Face registered successfully"), disk',
       state_with alice (sample_ticket "a11ce" "active"))
    ∧ files disk' !! face_path sample_world sample_fs "b0b" = Some (strip_data_url "aGk=").
Proof.
  apply (register_face_unknown_user sample_world sample_fs
           (face_request (Str "aGk=") {[ "userId" := ObjectId "b0b" ]})
           (mkDisk ∅ ∅) (state_with alice (sample_ticket "a11ce" "active")) "b0b" "aGk=");
    try reflexivity; try discriminate.
  intros x Hx%list_elem_of_In. cbn in Hx. destruct Hx as [<- | []]. discriminate.
Defined.

(** X26: when the update of the user fails the handler answers 500, but
    the file it has just written stays on the disk: nothing removes it. *)
Theorem register_face_no_rollback w fs req disk s h img :
  get (user req) "userId" = ObjectId h →
  field (req_body req) "image" = Str img → img ≠ "" →
  fs_ok fs 0 = true → fs_ok fs 1 = true → db_ok w 0 = false →
  ∃ disk',
    register_face_handler w fs req disk s
    = (Normal (response 500 false "Failed to register face."), disk', s)
    ∧ files disk' !! face_path w fs h = Some (strip_data_url img).
Proof.
  intros Hu Hi Hne Hfs0 Hfs1 Hdb.
  destruct (register_face_written w fs req disk s h img Hu Hi Hne Hfs0 Hfs1)
    as (disk' & E & Hfiles & _ & _).
  rewrite Hdb in E. exists disk'. rewrite Hfiles. split; [exact E | apply lookup_insert_eq].
Qed.

Lemma register_face_no_rollback_witness :
  ∃ disk',
    register_face_handler storage_down sample_fs
      (face_request (Str "aGk=") {[ "userId" := ObjectId "a11ce" ]})
      (mkDisk ∅ ∅) (state_with alice (sample_ticket "a11ce" "active"))
    = (Normal (response 500 false "Failed to register face."), disk',
       state_with alice (sample_ticket "a11ce" "active"))
    ∧ files disk' !! face_path storage_down sample_fs "a11ce" = Some (strip_data_url "aGk=").
Proof.
  apply (register_face_no_rollback storage_down sample_fs
           (face_request (Str "aGk=") {[ "userId" := ObjectId "a11ce" ]})
           (mkDisk ∅ ∅) (state_with alice (sample_ticket "a11ce" "active")) "a11ce" "aGk=");
    try reflexivity; try discriminate.
Defined.

Lemma truthy_path_join a b : truthy (Str (path_join a b)) = true.
Proof. by destruct a. Qed.

(** X27: registering a face and then presenting one's own ticket: the
    registration is answered 200 and the verification that follows finds
    the stored path, calls the matcher and is answered 403, the store being
    left as the registration made it. *)
Theorem register_face_then_verify_ticket w fs req disk s h img l1 u l2 vreq d q t :
  get (user req) "userId" = ObjectId h →
  field (req_body req) "image" = Str img → img ≠ "" →
  fs_ok fs 0 = true → fs_ok fs 1 = true → db_ok w 0 = true → db_ok w 1 = true →
  users s = (l1 ++ u :: l2)%list → (∀ x, x ∈ l1 → ¬ has_id h x) → has_id h u →
  authenticated w vreq d → get d "userId" = ObjectId h →
  field (req_body vreq) "qrData" = Str q →
  first_match (has_code_and_owner q h) (tickets s) t →
  ∃ disk' s',
    register_face_handler w fs req disk s
    = (Normal (response 200 true "Face registered successfully"), disk', s')
    ∧ verify_ticket w vreq s'
      = (Normal (response 403 false "Face verification failed"), s').
Proof.
  intros Hu Hi Hne Hfs0 Hfs1 Hdb0 Hdb1 Hs Hl1 Hid Hauth Hd Hq Ht.
  destruct (register_face_written w fs req disk s h img Hu Hi Hne Hfs0 Hfs1)
    as (disk' & E & _).
  rewrite Hdb0 in E. eexists _, _. split; [exact E |].
  rewrite Hs, update_first_split; [| | by apply matches_id]; cycle 1.
  { intros x Hx. apply matches_id_false. by apply Hl1. }
  unfold verify_ticket. rewrite (authenticateToken_pass _ _ _ _ Hauth).
  unfold verify_ticket_with, try_catch, bind. cbn [with_user req_body user].
  rewrite Hd, Hq, findOne_code_and_owner, Hdb0. cbn [set_collection tickets].
  rewrite (find_first_match _ _ _ _ (matches_code_and_owner q h) Ht).
  cbn -[findById]. rewrite findById_user, Hdb1. cbn [set_collection users].
  rewrite (find_first_match _ (has_id h) _
             (<["faceImagePath" := Str (face_path w fs h)]> u) (matches_id h)).
  2: { exists l1, l2. split; [reflexivity |]. split; [exact Hl1 |].
       unfold has_id. by rewrite lookup_insert_ne. }
  cbn -[compareFaces truthy].
  rewrite (get_Some _ _ _ (lookup_insert_eq u "faceImagePath" (Str (face_path w fs h)))).
  unfold face_path at 1. rewrite truthy_path_join.
  cbn -[compareFaces].
  reflexivity.
Qed.

Lemma register_face_then_verify_ticket_witness :
  ∃ disk' s',
    register_face_handler sample_world sample_fs
      (face_request (Str "data:image/jpeg;base64,aGk=") {[ "userId" := ObjectId "a11ce" ]})
      (mkDisk ∅ ∅) (state_with alice (sample_ticket "a11ce" "active"))
    = (Normal (response 200 true "Face registered successfully"), disk', s')
    ∧ verify_ticket sample_world (verify_request "token-of-alice") s'
      = (Normal (response 403 false "Face verification failed"), s').
Proof.
  apply (register_face_then_verify_ticket sample_world sample_fs
           (face_request (Str "data:image/jpeg;base64,aGk=") {[ "userId" := ObjectId "a11ce" ]})
           (mkDisk ∅ ∅) (state_with alice (sample_ticket "a11ce" "active"))
           "a11ce" "data:image/jpeg;base64,aGk=" [] alice []
           (verify_request "token-of-alice") {[ "userId" := ObjectId "a11ce" ]}
           "data:image/png;base64,QR" (sample_ticket "a11ce" "active"));
    try reflexivity; try discriminate.
  - intros x Hx. by apply elem_of_nil in Hx.
  - by split.
  - apply (first_match_head (has_code_and_owner "data:image/png;base64,QR" "a11ce")
             (sample_ticket "a11ce" "active") []).
    by split.
Defined.
